(** * Item Weight Measure: client-side form script

    A shallow embedding of the two form scripts of the repository
    ([item_weight_measure.js] and the legacy variant kept next to it)
    together with the verification of the workflow contract: default date
    range, report generation and distribution over the three child tables,
    and the local "reset to zero" correction. *)

From Stdlib Require Import ZArith String Ascii List SpecFloat Lia.
From stdpp Require Import gmap strings list fin_maps.

Local Open Scope string_scope.
Local Open Scope Z_scope.

(** ** JavaScript values *)

Module JS.

(** A JavaScript Number is an IEEE-754 binary64 value. *)
Definition number : Type := spec_float.

Definition of_Z (z : Z) : number := binary_normalize 53 1024 z 0 false.
Definition zero : number := S754_zero false.
Definition NaN : number := S754_nan.

(** The primitive values that a form document and a JSON response hold. *)
Inductive value : Type :=
| VUndefined
| VNull
| VBool (b : bool)
| VNumber (x : number)
| VString (s : string).

(** The part of the language runtime that the scripts reach through
    [Number(..)] and through [<], [>] against a number: the conversion of a
    string to a number. *)
Class Runtime : Type := { StringToNumber : string -> number }.

Section Conversions.
Context {rt : Runtime}.

(** [ToNumber], also what [Number(v)] returns. *)
Definition ToNumber (v : value) : number :=
  match v with
  | VUndefined => NaN
  | VNull => zero
  | VBool true => of_Z 1
  | VBool false => zero
  | VNumber x => x
  | VString s => StringToNumber s
  end.

Definition Number (v : value) : value := VNumber (ToNumber v).

(** [a < n], [a > n], [a >= n], [a <= n] for a number [n]: the comparison
    is numeric and any comparison with NaN is false. *)
Definition lt (a : value) (n : number) : bool := SFltb (ToNumber a) n.
Definition gt (a : value) (n : number) : bool := SFltb n (ToNumber a).
Definition ge (a : value) (n : number) : bool := SFleb n (ToNumber a).
Definition le (a : value) (n : number) : bool := SFleb (ToNumber a) n.
End Conversions.

(** [ToBoolean]: the falsy values are undefined, null, false, +0, -0, NaN
    and the empty string. *)
Definition ToBoolean (v : value) : bool :=
  match v with
  | VUndefined | VNull => false
  | VBool b => b
  | VNumber (S754_zero _) | VNumber S754_nan => false
  | VNumber _ => true
  | VString EmptyString => false
  | VString _ => true
  end.

(** [a || b] *)
Definition or (a b : value) : value := if ToBoolean a then a else b.

Definition nullish (v : value) : bool :=
  match v with VUndefined | VNull => true | _ => false end.

(** [a ?? b] *)
Definition coalesce (a b : value) : value := if nullish a then b else a.

(** [a == b] between two numbers. *)
Definition num_eq (x y : number) : bool := SFeqb x y.

(** A plain object: a finite map from property names to values.  Reading a
    property that the object does not have gives undefined. *)
Abbreviation object := (gmap string value).

Definition get (o : object) (k : string) : value := default VUndefined (o !! k).

End JS.

Import JS.

(** ** Calendar dates and [frappe.datetime] *)

Module Datetime.

(** A calendar date; [month] counts from 1. *)
Record date : Type := mkDate { year : Z; month : Z; day : Z }.

Definition leap_year (y : Z) : bool :=
  ((y mod 4 =? 0) && negb (y mod 100 =? 0)) || (y mod 400 =? 0).

Definition days_in_month (y m : Z) : Z :=
  match m with
  | 2 => if leap_year y then 29 else 28
  | 4 | 6 | 9 | 11 => 30
  | _ => 31
  end.

(** The dates of the model: real calendar days of the years 0 to 9999, the
    ones that print as [YYYY-MM-DD] with a four-digit year. *)
Definition valid (d : date) : bool :=
  (0 <=? year d) && (year d <=? 9999) &&
  (1 <=? month d) && (month d <=? 12) &&
  (1 <=? day d) && (day d <=? days_in_month (year d) (month d)).

(** A [Date] object; [None] is the Invalid Date. *)
Definition DateObj : Type := option date.

Definition digit_char (d : Z) : ascii := ascii_of_N (48 + Z.to_N d).

Definition char_digit (c : ascii) : option Z :=
  let n := Z.of_N (N_of_ascii c) - 48 in
  if (0 <=? n) && (n <=? 9) then Some n else None.

Definition pad2 (n : Z) : string :=
  String (digit_char (n / 10)) (String (digit_char (n mod 10)) EmptyString).

Definition pad4 (n : Z) : string :=
  String (digit_char (n / 1000)) (String (digit_char (n / 100 mod 10))
    (String (digit_char (n / 10 mod 10)) (String (digit_char (n mod 10)) EmptyString))).

(** [frappe.datetime.obj_to_str]: format as [YYYY-MM-DD]. *)
Definition obj_to_str (o : DateObj) : string :=
  match o with
  | Some d =>
      if valid d
      then (pad4 (year d) ++ "-" ++ pad2 (month d) ++ "-" ++ pad2 (day d))%string
      else "Invalid date"
  | None => "Invalid date"
  end.

(** [frappe.datetime.str_to_obj] on a [YYYY-MM-DD] string. *)
Definition str_to_obj (s : string) : DateObj :=
  match s with
  | String y1 (String y2 (String y3 (String y4 (String "-"
      (String m1 (String m2 (String "-" (String d1 (String d2 EmptyString))))))))) =>
      match char_digit y1, char_digit y2, char_digit y3, char_digit y4,
            char_digit m1, char_digit m2, char_digit d1, char_digit d2 with
      | Some a, Some b, Some c, Some e, Some f, Some g, Some h, Some i =>
          let d := mkDate (1000 * a + 100 * b + 10 * c + e) (10 * f + g) (10 * h + i) in
          if valid d then Some d else None
      | _, _, _, _, _, _, _, _ => None
      end
  | _ => None
  end.

(** Adding [n] months to a date: the month count moves by [n] and the day is
    clamped to the length of the month reached. *)
Definition date_add_months (d : date) (n : Z) : date :=
  let t := year d * 12 + (month d - 1) + n in
  let y := t / 12 in
  let m := t mod 12 + 1 in
  mkDate y m (Z.min (day d) (days_in_month y m)).

(** [frappe.datetime.add_months], from a date string to a date string. *)
Definition add_months (s : string) (n : Z) : string :=
  obj_to_str (option_map (fun d => date_add_months d n) (str_to_obj s)).

(** [Date.prototype.setDate(n)] for a day [n] of the current month (the
    script only passes 1); a day that rolls over into a neighbouring month
    is outside the model. *)
Definition setDate (o : DateObj) (n : Z) : DateObj :=
  option_map (fun d => mkDate (year d) (month d) n) o.

End Datetime.

(** ** The form object [frm] and the framework calls the scripts make *)

Module Frappe.

(** Row objects live in a store and are referred to by their address, so
    that a row reached through one child table and mutated in place is seen
    changed wherever that same object is referenced. *)
Abbreviation loc := nat.

(** What the scripts show or send, in the order they do it. *)
Inductive event : Type :=
| ConsoleLog (label : string)
| Msgprint (msg : string)
| ShowAlert (msg indicator : string)
| SetIntro (msg color : string)
| RefreshField (fieldname : string)
| Confirm (msg : string) (arg : nat)
| Call (method : string) (args : object) (freeze_message : string).

Record form : Type := mkForm {
  doc : object;                      (* the fields of frm.doc that hold a value *)
  tables : gmap string (list loc);   (* the child tables of frm.doc *)
  store : list object;               (* the row objects *)
  trace : list event                 (* effects on the user and the server *)
}.

(** The JSON body handed to the callback of [frappe.call]: the list at
    [r.message.results]. *)
Record response : Type := mkResponse { results : list object }.

Definition M (A : Type) : Type := form -> A * form.

Definition ret {A} (a : A) : M A := fun f => (a, f).
Definition bind {A B} (m : M A) (k : A -> M B) : M B :=
  fun f => let (a, f') := m f in k a f'.

Declare Scope frm_scope.
Delimit Scope frm_scope with frm.
Notation "x <- m ;; k" := (bind m (fun x => k))
  (at level 100, m at next level, k at level 200, right associativity) : frm_scope.
Notation "m ;; k" := (bind m (fun _ => k))
  (at level 100, k at level 200, right associativity) : frm_scope.
Local Open Scope frm_scope.

Definition exec {A} (m : M A) (f : form) : form := snd (m f).

(** What a handler leaves behind when it returns: nothing, a confirmation
    dialog waiting for the user, or a request waiting for its response. *)
Inductive pending : Type :=
| Finished
| AwaitConfirm (on_yes : M unit)
| AwaitResponse (callback : response -> M unit).

Definition emit (e : event) : M unit :=
  fun f => (tt, mkForm (doc f) (tables f) (store f) (trace f ++ [e])).

(** [frm.doc.<fieldname>] *)
Definition doc_get (fieldname : string) : M value :=
  fun f => (get (doc f) fieldname, f).

(** [frm.set_value(fieldname, v)] *)
Definition set_value (fieldname : string) (v : value) : M unit :=
  fun f => (tt, mkForm (<[fieldname := v]> (doc f)) (tables f) (store f) (trace f)).

(** [frm.doc.<fieldname> || []] for a child table *)
Definition doc_table (fieldname : string) : M (list loc) :=
  fun f => (default [] (tables f !! fieldname), f).

(** [frm.clear_table(fieldname)]: the table becomes a new empty array. *)
Definition clear_table (fieldname : string) : M unit :=
  fun f => (tt, mkForm (doc f) (<[fieldname := []]> (tables f)) (store f) (trace f)).

(** [frm.add_child(fieldname, values)]: a new row object holding [values]
    is created and pushed at the end of the table.  The bookkeeping
    properties that the framework adds to every row (name, idx, parent) are
    left out. *)
Definition add_child (fieldname : string) (values : object) : M loc :=
  fun f =>
    let l := length (store f) in
    (l, mkForm (doc f)
               (<[fieldname := (default [] (tables f !! fieldname) ++ [l])%list]> (tables f))
               (store f ++ [values]) (trace f)).

(** [r.<k>] and [r.<k> = v] on a row *)
Definition row_get (r : loc) (k : string) : M value :=
  fun f => (get (default ∅ (store f !! r)) k, f).

Definition row_set (r : loc) (k : string) (v : value) : M unit :=
  fun f => (tt, mkForm (doc f) (tables f) (alter (insert k v) r (store f)) (trace f)).

Definition refresh_field (fieldname : string) : M unit := emit (RefreshField fieldname).
Definition show_alert (msg indicator : string) : M unit := emit (ShowAlert msg indicator).
Definition msgprint (msg : string) : M unit := emit (Msgprint msg).
Definition set_intro (msg color : string) : M unit := emit (SetIntro msg color).
Definition console_log (label : string) : M unit := emit (ConsoleLog label).

(** [frappe.confirm(msg, on_yes)] *)
Definition confirm (msg : string) (arg : nat) (on_yes : M unit) : M pending :=
  emit (Confirm msg arg) ;; ret (AwaitConfirm on_yes).

(** [frappe.call({method, args, freeze_message, callback})] *)
Definition call (method : string) (args : object) (freeze_message : string)
    (callback : response -> M unit) : M pending :=
  emit (Call method args freeze_message) ;; ret (AwaitResponse callback).

(** [xs.forEach(body)] *)
Fixpoint forEach {A} (xs : list A) (body : A -> M unit) : M unit :=
  match xs with
  | [] => ret tt
  | x :: xs' => body x ;; forEach xs' body
  end.

Definition when (b : bool) (m : M unit) : M unit := if b then m else ret tt.

(** The user confirms the dialog, or the server answers the request. *)
Definition answer_yes (p : pending) : M unit :=
  match p with AwaitConfirm on_yes => on_yes | _ => ret tt end.

Definition respond (p : pending) (r : response) : M unit :=
  match p with AwaitResponse callback => callback r | _ => ret tt end.

(** The rows of a child table, read through the store. *)
Definition rows_at (h : list object) (ls : list loc) : list object :=
  omap (fun l => h !! l) ls.

Definition table_locs (f : form) (fieldname : string) : list loc :=
  default [] (tables f !! fieldname).

Definition table_rows (f : form) (fieldname : string) : list object :=
  rows_at (store f) (table_locs f fieldname).

End Frappe.

Import Datetime Frappe.
Local Open Scope frm_scope.

(** ** The form script of the Item Weight Measure doctype
    ([item_weight_measure.js]) *)

Module ItemWeightMeasure.

Definition generate_method : string :=
  "data_analytics.data_analytics.doctype.item_weight_measure.item_weight_measure.generate_item_best_month".

(** The local function [setDefaultDates] of [onload]; [today] is the
    calendar day that [frappe.datetime.get_today()] reports. *)
Definition setDefaultDates (today : date) : M unit :=
  let today := obj_to_str (Some today) in
  let d := add_months today (-12) in
  let firstDay := str_to_obj d in
  let firstDay := setDate firstDay 1 in
  let fromStr := obj_to_str firstDay in
  from_date <- doc_get "from_date" ;;
  when (negb (ToBoolean from_date)) (set_value "from_date" (VString fromStr)) ;;
  to_date <- doc_get "to_date" ;;
  when (negb (ToBoolean to_date)) (set_value "to_date" (VString today)).

Definition onload (today : date) : M unit := setDefaultDates today.

Definition refresh : M unit :=
  set_intro ("Choose <b>Company</b> and (optionally) <b>Warehouse</b>. " ++
             "Set a date range or leave defaults (last ~12 months). " ++
             "Click <b>Generate</b> to compute the best month per item.")
            "blue".

(** The object literal that the callback passes to [frm.add_child]; the
    source writes it out three times, once per table. *)
Definition derived_row (item : object) : object :=
  {[ "item" := get item "item";
     "qty" := get item "best_sell";
     "date" := get item "date";
     "need" := get item "need";
     "on_stock" := get item "on_stock";
     "overload" := get item "overload" ]}.

Section Handlers.
Context {rt : Runtime}.

(** The body of [r.message.results.forEach] *)
Definition distribute (item : object) : M unit :=
  add_child "items" (derived_row item) ;;
  when (lt (get item "on_stock") zero)
       (add_child "negative_stock_items" (derived_row item) ;; ret tt) ;;
  when (gt (get item "overload") zero)
       (add_child "overload_items" (derived_row item) ;; ret tt).

Definition generate_callback (r : response) : M unit :=
  console_log "my result ===> " ;;
  forEach (results r) distribute ;;
  refresh_field "items" ;;
  refresh_field "negative_stock_items" ;;
  refresh_field "overload_items".

Definition generate_btn : M pending :=
  clear_table "items" ;;
  refresh_field "items" ;;
  clear_table "negative_stock_items" ;;
  refresh_field "negative_stock_items" ;;
  clear_table "overload_items" ;;
  refresh_field "overload_items" ;;
  company <- doc_get "company" ;;
  warehouse <- doc_get "warehouse" ;;
  from_date <- doc_get "from_date" ;;
  to_date <- doc_get "to_date" ;;
  call generate_method
       {[ "company" := company; "warehouse" := warehouse;
          "from_date" := from_date; "to_date" := to_date ]}
       "Computing…"
       generate_callback.

(** The body of [rows.forEach] in the confirmation callback *)
Definition reset_row (r : loc) : M unit :=
  r_qty <- row_get r "qty" ;;
  r_best_sell <- row_get r "best_sell" ;;
  let qty := or (Number (coalesce r_qty r_best_sell)) (VNumber zero) in
  row_set r "on_stock" (VNumber zero) ;;
  row_set r "need" qty ;;
  row_set r "overload" (VNumber zero).

Definition reset_to_zero_btn : M pending :=
  rows <- doc_table "negative_stock_items" ;;
  if (length rows =? 0)%nat then
    show_alert "No rows in Negative Stock Items." "orange" ;;
    ret Finished
  else
    confirm "Set {0} row(s) On stock → 0 and recompute Need/Overload?" (length rows)
      (forEach rows reset_row ;;
       refresh_field "negative_stock_items" ;;
       show_alert "Reset complete." "green").
End Handlers.

End ItemWeightMeasure.

(** ** The second form script of the repository, the legacy variant: it
    knows only the [items] table and reads the response rows under the names
    [item_code], [total_qty] and [ym]. *)

Module Legacy.

(** [onload] and [refresh] are written as in [item_weight_measure.js]. *)
Definition onload : date -> M unit := ItemWeightMeasure.onload.
Definition refresh : M unit := ItemWeightMeasure.refresh.

Definition item_row (item : object) : object :=
  {[ "item" := get item "item_code";
     "qty" := get item "total_qty";
     "date" := get item "ym" ]}.

Definition generate_callback (r : response) : M unit :=
  console_log "my result ===> " ;;
  msgprint "Done" ;;
  forEach (results r) (fun item => add_child "items" (item_row item) ;; ret tt) ;;
  refresh_field "items".

Definition generate_btn : M pending :=
  company <- doc_get "company" ;;
  warehouse <- doc_get "warehouse" ;;
  from_date <- doc_get "from_date" ;;
  to_date <- doc_get "to_date" ;;
  call ItemWeightMeasure.generate_method
       {[ "company" := company; "warehouse" := warehouse;
          "from_date" := from_date; "to_date" := to_date ]}
       "Computing…"
       generate_callback.

End Legacy.

(** ** Scenarios *)

Local Open Scope list_scope.

(** A runtime that reads unsigned decimal integer literals and the empty
    string, and gives NaN for anything else; used to run the scripts on
    sample data. *)
Fixpoint digits_value (s : string) (acc : Z) : option Z :=
  match s with
  | EmptyString => Some acc
  | String c s' =>
      match char_digit c with
      | Some d => digits_value s' (10 * acc + d)
      | None => None
      end
  end.

Definition sample_runtime : Runtime :=
  {| StringToNumber := fun s =>
       match digits_value s 0 with Some z => of_Z z | None => NaN end |}.

Section Scenarios.
Context {rt : Runtime}.

(** One report cycle: the Generate button is pressed on [f] and the server
    answers [r]. *)
Definition generate_cycle (f : form) (r : response) : form :=
  let (p, f1) := ItemWeightMeasure.generate_btn f in exec (respond p r) f1.

(** The Reset button is pressed on [f] and the user confirms. *)
Definition reset_confirmed (f : form) : form :=
  let (p, f1) := ItemWeightMeasure.reset_to_zero_btn f in exec (answer_yes p) f1.

(** The conditions of the two [if]s of the distribution. *)
Definition negative_stock (item : object) : bool := lt (get item "on_stock") zero.
Definition overloaded (item : object) : bool := gt (get item "overload") zero.

(** What the confirmation callback computes for one row. *)
Definition reset_qty (r : object) : number :=
  match or (Number (coalesce (get r "qty") (get r "best_sell"))) (VNumber zero) with
  | VNumber x => x
  | _ => NaN
  end.

Definition reset_object (r : object) : object :=
  <["overload" := VNumber zero]>
    (<["need" := VNumber (reset_qty r)]> (<["on_stock" := VNumber zero]> r)).

(** The store after the loop of the confirmation callback over [rows]. *)
Definition reset_store (rows : list loc) (h : list object) : list object :=
  foldl (fun h l => alter reset_object l h) h rows.

(** The quantity as the specification words it: the [qty] field, else the
    [best_sell] field when [qty] is absent, and 0 when the field read does
    not give a number. *)
Definition number_or_zero (v : value) : number :=
  match ToNumber v with S754_nan => zero | x => x end.

Definition spec_qty (r : object) : number :=
  if negb (nullish (get r "qty")) then number_or_zero (get r "qty")
  else if negb (nullish (get r "best_sell")) then number_or_zero (get r "best_sell")
  else zero.
End Scenarios.

(** The same cycle with the legacy script. *)
Definition legacy_cycle (f : form) (r : response) : form :=
  let (p, f1) := Legacy.generate_btn f in exec (respond p r) f1.

(** Every row reference of the table [fieldname] points into the store. *)
Definition in_store (f : form) (fieldname : string) : Prop :=
  Forall (fun l => (l < length (store f))%nat) (table_locs f fieldname).

Definition tables_in_store (f : form) : Prop :=
  in_store f "items" /\ in_store f "negative_stock_items" /\ in_store f "overload_items".

Definition opt_row (b : bool) (item : object) : list object :=
  if b then [ItemWeightMeasure.derived_row item] else [].

(** The form as [generate_btn] leaves it when it returns: the three
    tables emptied and the request sent. *)
Definition request_args (f : form) : object :=
  {[ "company" := get (doc f) "company"; "warehouse" := get (doc f) "warehouse";
     "from_date" := get (doc f) "from_date"; "to_date" := get (doc f) "to_date" ]}.

Definition requested (f : form) : form :=
  mkForm (doc f)
         (<["overload_items" := []]>
            (<["negative_stock_items" := []]> (<["items" := []]> (tables f))))
         (store f)
         (trace f ++ [RefreshField "items"; RefreshField "negative_stock_items";
                      RefreshField "overload_items";
                      Call ItemWeightMeasure.generate_method (request_args f)
                           "Computing…"]).

Definition no_rows_alert : event :=
  ShowAlert "No rows in Negative Stock Items." "orange".

Definition reset_events (n : nat) : list event :=
  [Confirm "Set {0} row(s) On stock → 0 and recompute Need/Overload?" n;
   RefreshField "negative_stock_items";
   ShowAlert "Reset complete." "green"].

(** The day the default range starts on: day 1 of the same month, one year
    earlier. *)
Definition first_day_a_year_before (today : date) : date :=
  mkDate (year today - 1) (month today) 1.

Definition default_from (today : date) : string :=
  obj_to_str (setDate (str_to_obj (add_months (obj_to_str (Some today)) (-12))) 1).

Definition fill (fieldname : string) (v : value) (d : object) : object :=
  if ToBoolean (get d fieldname) then d else <[fieldname := v]> d.

(** The normalization at the boundary that the specification describes: a
    row [{item_code, total_qty, ym}] read as a canonical result row. *)
Definition normalize_legacy (item : object) : object :=
  {[ "item" := get item "item_code";
     "best_sell" := get item "total_qty";
     "date" := get item "ym" ]}.

Definition normalized (r : response) : response :=
  mkResponse (map normalize_legacy (results r)).

(** The three tables hold the same rows in two forms. *)
Definition same_collections (f1 f2 : form) : Prop :=
  table_rows f1 "items" = table_rows f2 "items"
  /\ table_rows f1 "negative_stock_items" = table_rows f2 "negative_stock_items"
  /\ table_rows f1 "overload_items" = table_rows f2 "overload_items".

Definition legacy_requested (f : form) : form :=
  mkForm (doc f) (tables f) (store f)
         (trace f ++ [Call ItemWeightMeasure.generate_method (request_args f)
                           "Computing…"]).

(** No row reference of table [a] is also in table [b]. *)
Definition apart (f : form) (a b : string) : Prop :=
  forall l, In l (table_locs f a) -> ~ In l (table_locs f b).

(** The rows of [negative_stock_items] are objects of their own. *)
Definition unshared (f : form) : Prop :=
  tables_in_store f
  /\ apart f "negative_stock_items" "items"
  /\ apart f "negative_stock_items" "overload_items".

(** ** Sample data: the end-to-end example of the specification *)

Definition empty_form : form := mkForm ∅ ∅ [] [].

Definition row_A : object :=
  {[ "item" := VString "A"; "best_sell" := VNumber (of_Z 10);
     "date" := VString "2024-06"; "need" := VNumber (of_Z 8);
     "on_stock" := VNumber (of_Z (-2)); "overload" := VNumber zero ]}.

Definition row_B : object :=
  {[ "item" := VString "B"; "best_sell" := VNumber (of_Z 5);
     "date" := VString "2024-03"; "need" := VNumber (of_Z 5);
     "on_stock" := VNumber zero; "overload" := VNumber (of_Z 3) ]}.

Definition sample_response : response := mkResponse [row_A; row_B].

Definition sample_form : form :=
  @generate_cycle sample_runtime empty_form sample_response.

(** A response in the legacy shape, and a form that still shows one row of
    an earlier report. *)
Definition legacy_row : object :=
  {[ "item_code" := VString "A"; "total_qty" := VNumber (of_Z 10);
     "ym" := VString "2024-06" ]}.

Definition legacy_response : response := mkResponse [legacy_row].

Definition stale_row : object :=
  {[ "item" := VString "OLD"; "qty" := VNumber (of_Z 1); "date" := VString "2023-01" ]}.

Definition stale_form : form :=
  mkForm ∅ {[ "items" := [0%nat]; "negative_stock_items" := [];
              "overload_items" := [] ]} [stale_row] [].

(** A form whose dates the user has already chosen, and one who has not. *)
Definition dated_form : form :=
  mkForm {[ "from_date" := VString "2024-01-01"; "to_date" := VString "2024-12-31";
            "company" := VString "C1" ]} ∅ [] [].

Definition undated_form : form := mkForm {[ "company" := VString "C1" ]} ∅ [] [].

Definition leap_day : date := mkDate 2024 2 29.

(** The reset example of the specification: one row
    [{qty: 5, on_stock: -3, need: 2, overload: 0}]. *)
Definition negative_row : object :=
  {[ "qty" := VNumber (of_Z 5); "on_stock" := VNumber (of_Z (-3));
     "need" := VNumber (of_Z 2); "overload" := VNumber zero ]}.

Definition negative_form : form :=
  mkForm ∅ {[ "negative_stock_items" := [0%nat] ]} [negative_row] [].

(** ** Further notions used by the properties of the scripts *)

(** [d1] is an earlier calendar day than [d2]. *)
Definition date_before (d1 d2 : date) : bool :=
  (year d1 <? year d2)
  || ((year d1 =? year d2)
      && ((month d1 <? month d2)
          || ((month d1 =? month d2) && (day d1 <? day d2)))).

(** The date that a field of the document holds, when it holds a date
    string. *)
Definition stored_date (f : form) (fieldname : string) : DateObj :=
  match get (doc f) fieldname with
  | VString s => str_to_obj s
  | _ => None
  end.

(** The requests in a trace. *)
Definition is_call (e : event) : bool :=
  match e with Call _ _ _ => true | _ => false end.

Definition calls (tr : list event) : list event := List.filter is_call tr.

(** More sample data: a form with only [from_date] chosen, and a row whose
    [qty] is a text that is no number. *)
Definition half_dated_form : form :=
  mkForm {[ "from_date" := VString "2024-01-01" ]} ∅ [] [].


(** The row references of the three tables, table after table. *)
Definition entry_locs (f : form) : list loc :=
  table_locs f "items" ++ table_locs f "negative_stock_items"
  ++ table_locs f "overload_items".

(** The entries of the three tables are the [c] row objects created since
    the store had [b] objects. *)
Definition entries_are (f : form) (b c : nat) : Prop :=
  entry_locs f ≡ₚ seq b c /\ length (store f) = (b + c)%nat.

(** * Lemmas *)

(** ** Store and table lemmas *)

Lemma rows_at_app (h : list object) (ls1 ls2 : list loc) :
  rows_at h (ls1 ++ ls2) = rows_at h ls1 ++ rows_at h ls2.
Proof. unfold rows_at. apply omap_app. Qed.

Lemma rows_at_alloc (h : list object) (o : object) (ls : list loc) :
  Forall (fun l => (l < length h)%nat) ls ->
  rows_at (h ++ [o]) ls = rows_at h ls.
Proof.
  unfold rows_at. induction 1 as [|l ls Hl _ IH]; [reflexivity|].
  cbn. rewrite lookup_app_l by exact Hl. now rewrite IH.
Qed.

Lemma rows_at_new (h : list object) (o : object) :
  rows_at (h ++ [o]) [length h] = [o].
Proof.
  unfold rows_at. cbn. rewrite lookup_app_r by lia.
  now rewrite Nat.sub_diag.
Qed.

Lemma table_locs_add_child_eq (f : form) (n : string) (o : object) :
  table_locs (exec (add_child n o) f) n = table_locs f n ++ [length (store f)].
Proof. unfold table_locs, exec, add_child. cbn. now rewrite lookup_insert_eq. Qed.

Lemma table_locs_add_child_ne (f : form) (n n' : string) (o : object) :
  n <> n' -> table_locs (exec (add_child n o) f) n' = table_locs f n'.
Proof. intros Hne. unfold table_locs, exec, add_child. cbn. now rewrite lookup_insert_ne. Qed.

Lemma table_rows_add_child_eq (f : form) (n : string) (o : object) :
  in_store f n ->
  table_rows (exec (add_child n o) f) n = table_rows f n ++ [o].
Proof.
  intros Hin. unfold table_rows. rewrite table_locs_add_child_eq.
  change (store (exec (add_child n o) f)) with (store f ++ [o]).
  rewrite rows_at_app, rows_at_new. now rewrite rows_at_alloc.
Qed.

Lemma table_rows_add_child_ne (f : form) (n n' : string) (o : object) :
  n <> n' -> in_store f n' ->
  table_rows (exec (add_child n o) f) n' = table_rows f n'.
Proof.
  intros Hne Hin. unfold table_rows. rewrite table_locs_add_child_ne by exact Hne.
  change (store (exec (add_child n o) f)) with (store f ++ [o]).
  now apply rows_at_alloc.
Qed.

Lemma in_store_add_child (f : form) (n n' : string) (o : object) :
  in_store f n' -> in_store (exec (add_child n o) f) n'.
Proof.
  intros Hin. unfold in_store.
  assert (Hlen : length (store (exec (add_child n o) f)) = S (length (store f))).
  { change (store (exec (add_child n o) f)) with (store f ++ [o]).
    rewrite length_app. cbn. lia. }
  rewrite Hlen.
  destruct (decide (n = n')) as [->|Hne].
  - rewrite table_locs_add_child_eq. apply Forall_app. split.
    + eapply Forall_impl; [exact Hin|]. cbn. intros; lia.
    + repeat constructor.
  - rewrite table_locs_add_child_ne by exact Hne.
    eapply Forall_impl; [exact Hin|]. cbn. intros; lia.
Qed.

Lemma table_rows_add_child (f : form) (n n' : string) (o : object) :
  in_store f n' ->
  table_rows (exec (add_child n o) f) n'
  = table_rows f n' ++ (if String.eqb n n' then [o] else []).
Proof.
  intros Hin. destruct (String.eqb_spec n n') as [->|Hne].
  - now apply table_rows_add_child_eq.
  - rewrite app_nil_r. now apply table_rows_add_child_ne.
Qed.

Lemma exec_bind {A B} (m : M A) (k : A -> M B) (f : form) :
  exec (bind m k) f = exec (k (fst (m f))) (snd (m f)).
Proof. unfold exec, bind. now destruct (m f). Qed.

Lemma exec_seq {A B} (m : M A) (k : M B) (f : form) :
  exec (m ;; k) f = exec k (exec m f).
Proof. apply exec_bind. Qed.

Lemma exec_emit_tables (e : event) (f : form) :
  tables (exec (emit e) f) = tables f /\ store (exec (emit e) f) = store f /\
  doc (exec (emit e) f) = doc f /\ trace (exec (emit e) f) = trace f ++ [e].
Proof. now repeat split. Qed.

(** ** Distribution of the response over the three tables *)

Section Distribution.
Context {rt : Runtime}.
Import ItemWeightMeasure.

Lemma exec_when_add_child (b : bool) (n n' : string) (o : object) (f : form) :
  let f' := exec (when b (add_child n o ;; ret tt)) f in
  in_store f n' ->
  table_rows f' n' = table_rows f n' ++ (if b && String.eqb n n' then [o] else [])
  /\ in_store f' n' /\ doc f' = doc f /\ trace f' = trace f.
Proof.
  intros f' Hin. subst f'. destruct b; cbn [when andb].
  - rewrite exec_seq. change (exec (ret tt) ?g) with g.
    split; [now apply table_rows_add_child|].
    split; [now apply in_store_add_child|]. now split.
  - change (exec (ret tt) f) with f. rewrite app_nil_r. now repeat split.
Qed.

Lemma distribute_rows (item : object) (f : form) :
  let f' := exec (distribute item) f in
  tables_in_store f ->
  table_rows f' "items" = table_rows f "items" ++ [derived_row item]
  /\ table_rows f' "negative_stock_items"
     = table_rows f "negative_stock_items" ++ opt_row (negative_stock item) item
  /\ table_rows f' "overload_items"
     = table_rows f "overload_items" ++ opt_row (overloaded item) item
  /\ tables_in_store f' /\ doc f' = doc f /\ trace f' = trace f.
Proof.
  intros f' (Hi & Hn & Ho). subst f'. unfold distribute.
  rewrite exec_seq, exec_seq.
  set (f1 := exec (add_child "items" (derived_row item)) f).
  assert (H1 : tables_in_store f1) by (repeat split; now apply in_store_add_child).
  destruct H1 as (Hi1 & Hn1 & Ho1).
  fold (negative_stock item). fold (overloaded item).
  set (f2 := exec (when (negative_stock item) _) f1).
  destruct (exec_when_add_child (negative_stock item) "negative_stock_items"
              "items" (derived_row item) f1 Hi1) as (Ri2 & Hi2 & D2 & T2).
  destruct (exec_when_add_child (negative_stock item) "negative_stock_items"
              "negative_stock_items" (derived_row item) f1 Hn1) as (Rn2 & Hn2 & _).
  destruct (exec_when_add_child (negative_stock item) "negative_stock_items"
              "overload_items" (derived_row item) f1 Ho1) as (Ro2 & Ho2 & _).
  fold f2 in Ri2, Hi2, D2, T2, Rn2, Hn2, Ro2, Ho2.
  destruct (exec_when_add_child (overloaded item) "overload_items"
              "items" (derived_row item) f2 Hi2) as (Ri3 & Hi3 & D3 & T3).
  destruct (exec_when_add_child (overloaded item) "overload_items"
              "negative_stock_items" (derived_row item) f2 Hn2) as (Rn3 & Hn3 & _).
  destruct (exec_when_add_child (overloaded item) "overload_items"
              "overload_items" (derived_row item) f2 Ho2) as (Ro3 & Ho3 & _).
  rewrite Ri3, Rn3, Ro3, Ri2, Rn2, Ro2, D3, T3, D2, T2.
  unfold f1.
  rewrite (table_rows_add_child f "items" "items") by exact Hi.
  rewrite (table_rows_add_child f "items" "negative_stock_items") by exact Hn.
  rewrite (table_rows_add_child f "items" "overload_items") by exact Ho.
  cbn [String.eqb Ascii.eqb Bool.eqb andb]. rewrite !Bool.andb_false_r, !Bool.andb_true_r.
  rewrite !app_nil_r. unfold opt_row, tables_in_store. now repeat split.
Qed.
End Distribution.

Section Generation.
Context {rt : Runtime}.
Import ItemWeightMeasure.

Lemma map_filter_cons (p : object -> bool) (item : object) (rs : list object) :
  map derived_row (List.filter p (item :: rs))
  = opt_row (p item) item ++ map derived_row (List.filter p rs).
Proof. cbn. unfold opt_row. now destruct (p item). Qed.

Lemma forEach_distribute (rs : list object) (f : form) :
  let f' := exec (forEach rs distribute) f in
  tables_in_store f ->
  table_rows f' "items" = table_rows f "items" ++ map derived_row rs
  /\ table_rows f' "negative_stock_items"
     = table_rows f "negative_stock_items"
       ++ map derived_row (List.filter negative_stock rs)
  /\ table_rows f' "overload_items"
     = table_rows f "overload_items" ++ map derived_row (List.filter overloaded rs)
  /\ tables_in_store f' /\ doc f' = doc f /\ trace f' = trace f.
Proof.
  revert f. induction rs as [|item rs IH]; intros f f' Hwf; subst f'.
  - cbn [forEach map List.filter]. change (exec (ret tt) f) with f.
    rewrite !app_nil_r. repeat split; try reflexivity; apply Hwf.
  - cbn [forEach]. rewrite exec_seq.
    destruct (distribute_rows item f Hwf) as (Ri & Rn & Ro & Hwf1 & D1 & T1).
    destruct (IH _ Hwf1) as (Ri' & Rn' & Ro' & Hwf2 & D2 & T2).
    rewrite Ri', Rn', Ro', Ri, Rn, Ro, D2, T2, D1, T1.
    rewrite !map_filter_cons. cbn [map]. rewrite <- !app_assoc.
    repeat split; try reflexivity; apply Hwf2.
Qed.

Lemma generate_btn_run (f : form) :
  generate_btn f = (AwaitResponse generate_callback, requested f).
Proof.
  unfold generate_btn, requested, clear_table, refresh_field, call, emit, doc_get,
    bind, ret. cbn. rewrite <- !app_assoc. reflexivity.
Qed.

Lemma requested_tables (f : form) :
  table_locs (requested f) "items" = []
  /\ table_locs (requested f) "negative_stock_items" = []
  /\ table_locs (requested f) "overload_items" = [].
Proof. unfold table_locs, requested. cbn. now simplify_map_eq. Qed.

Lemma requested_in_store (f : form) : tables_in_store (requested f).
Proof.
  destruct (requested_tables f) as (Hi & Hn & Ho).
  unfold tables_in_store, in_store. rewrite Hi, Hn, Ho. repeat split; constructor.
Qed.

Lemma generate_callback_rows (r : response) (f : form) :
  let f' := exec (generate_callback r) f in
  tables_in_store f ->
  table_rows f' "items" = table_rows f "items" ++ map derived_row (results r)
  /\ table_rows f' "negative_stock_items"
     = table_rows f "negative_stock_items"
       ++ map derived_row (List.filter negative_stock (results r))
  /\ table_rows f' "overload_items"
     = table_rows f "overload_items"
       ++ map derived_row (List.filter overloaded (results r))
  /\ tables_in_store f'
  /\ doc f' = doc f
  /\ trace f' = trace f ++ [ConsoleLog "my result ===> "; RefreshField "items";
                            RefreshField "negative_stock_items";
                            RefreshField "overload_items"].
Proof.
  intros f' Hwf. subst f'. unfold generate_callback.
  rewrite !exec_seq.
  set (f0 := exec (console_log _) f).
  assert (Hwf0 : tables_in_store f0) by exact Hwf.
  destruct (forEach_distribute (results r) f0 Hwf0) as (Ri & Rn & Ro & W & D & T).
  set (f1 := exec (forEach _ _) f0) in *.
  change (table_rows (exec (refresh_field _) (exec (refresh_field _)
           (exec (refresh_field _) f1))) ?n) with (table_rows f1 n).
  rewrite Ri, Rn, Ro. repeat split; try apply W.
  - exact D.
  - cbn [exec refresh_field emit snd trace]. rewrite T. unfold f0. cbn.
    rewrite <- !app_assoc. reflexivity.
Qed.

Lemma generate_cycle_run (f : form) (r : response) :
  generate_cycle f r = exec (generate_callback r) (requested f).
Proof. unfold generate_cycle. now rewrite generate_btn_run. Qed.

Lemma generate_cycle_rows (f : form) (r : response) :
  table_rows (generate_cycle f r) "items" = map derived_row (results r)
  /\ table_rows (generate_cycle f r) "negative_stock_items"
     = map derived_row (List.filter negative_stock (results r))
  /\ table_rows (generate_cycle f r) "overload_items"
     = map derived_row (List.filter overloaded (results r))
  /\ tables_in_store (generate_cycle f r).
Proof.
  rewrite generate_cycle_run.
  destruct (generate_callback_rows r (requested f) (requested_in_store f))
    as (Ri & Rn & Ro & W & _).
  destruct (requested_tables f) as (Hi & Hn & Ho).
  unfold table_rows in *. rewrite Hi, Hn, Ho in *. cbn in Ri, Rn, Ro.
  now rewrite Ri, Rn, Ro.
Qed.

Lemma in_store_length (f : form) (n : string) :
  in_store f n -> length (table_rows f n) = length (table_locs f n).
Proof.
  unfold in_store, table_rows, rows_at.
  generalize (table_locs f n) as ls. generalize (store f) as h.
  intros h ls. induction 1 as [|l ls Hl _ IH]; [reflexivity|].
  destruct (lookup_lt_is_Some_2 _ _ Hl) as [o Ho].
  change (omap (fun l => h !! l) (l :: ls))
    with (match h !! l with
          | Some y => y :: omap (fun l => h !! l) ls
          | None => omap (fun l => h !! l) ls
          end).
  rewrite Ho. cbn [length]. f_equal. exact IH.
Qed.
End Generation.

(** ** Row objects are not shared between tables *)

Lemma table_locs_add_child (f : form) (n t : string) (o : object) :
  table_locs (exec (add_child n o) f) t
  = table_locs f t ++ (if String.eqb n t then [length (store f)] else []).
Proof.
  destruct (String.eqb_spec n t) as [->|Hne].
  - apply table_locs_add_child_eq.
  - rewrite app_nil_r. now apply table_locs_add_child_ne.
Qed.

Lemma in_store_lt (f : form) (t : string) (l : loc) :
  in_store f t -> In l (table_locs f t) -> (l < length (store f))%nat.
Proof. unfold in_store. rewrite Forall_forall. intros H Hl. apply H. now apply list_elem_of_In. Qed.

Lemma apart_add_child (f : form) (n a b : string) (o : object) :
  a <> b -> in_store f a -> in_store f b -> apart f a b ->
  apart (exec (add_child n o) f) a b.
Proof.
  intros Hab Ha Hb Hsep l. rewrite !table_locs_add_child, !in_app_iff.
  intros [Hl|Hl] [Hl'|Hl'].
  - now apply (Hsep l).
  - destruct (String.eqb n b); [|destruct Hl'].
    destruct Hl' as [<-|[]]. pose proof (in_store_lt f a _ Ha Hl). lia.
  - destruct (String.eqb n a); [|destruct Hl].
    destruct Hl as [<-|[]]. pose proof (in_store_lt f b _ Hb Hl'). lia.
  - destruct (String.eqb_spec n a) as [->|?]; [|destruct Hl].
    destruct (String.eqb_spec a b) as [->|?]; [congruence|destruct Hl'].
Qed.

Section Sharing.
Context {rt : Runtime}.
Import ItemWeightMeasure.

Lemma unshared_add_child (f : form) (n : string) (o : object) :
  unshared f -> unshared (exec (add_child n o) f).
Proof.
  intros ((Hi & Hn & Ho) & Hni & Hno). repeat split.
  1-3: now apply in_store_add_child.
  - apply apart_add_child; [discriminate|assumption..].
  - apply apart_add_child; [discriminate|assumption..].
Qed.

Lemma unshared_distribute (item : object) (f : form) :
  unshared f -> unshared (exec (distribute item) f).
Proof.
  intros H. unfold distribute. rewrite !exec_seq.
  apply (unshared_add_child _ "items" (derived_row item)) in H.
  set (f1 := exec (add_child "items" _) f) in *.
  assert (H2 : unshared (exec (when (lt (get item "on_stock") zero)
                 (add_child "negative_stock_items" (derived_row item) ;; ret tt)) f1)).
  { destruct (lt _ _); [|exact H]. cbn [when]. rewrite exec_seq.
    now apply unshared_add_child. }
  destruct (gt _ _); [|exact H2]. cbn [when]. rewrite exec_seq.
  now apply unshared_add_child.
Qed.

Lemma unshared_forEach_distribute (rs : list object) (f : form) :
  unshared f -> unshared (exec (forEach rs distribute) f).
Proof.
  revert f. induction rs as [|item rs IH]; intros f H; [exact H|].
  cbn [forEach]. rewrite exec_seq. now apply IH, unshared_distribute.
Qed.

(** After a report cycle no row of [negative_stock_items] is the same
    object as a row of [items] or [overload_items]. *)
Lemma generate_cycle_unshared (f : form) (r : response) :
  unshared (generate_cycle f r).
Proof.
  rewrite generate_cycle_run. unfold generate_callback. rewrite !exec_seq.
  assert (H0 : unshared (exec (console_log "my result ===> ") (requested f))).
  { destruct (requested_tables f) as (Hi & Hn & Ho).
    split; [exact (requested_in_store f)|].
    split; intros l Hl; change (In l (table_locs (requested f) "negative_stock_items")) in Hl;
      rewrite Hn in Hl; destruct Hl. }
  apply (unshared_forEach_distribute (results r)) in H0.
  exact H0.
Qed.
End Sharing.

(** ** Facts about the values compared and copied *)

Section Values.
Context {rt : Runtime}.
Import ItemWeightMeasure.

Lemma lt_zero_not_ge (v : value) : lt v zero = true -> ge v zero = false.
Proof.
  unfold lt, ge. destruct (ToNumber v) as [s|s| |s m e]; cbn;
    try destruct s; congruence.
Qed.

Lemma gt_zero_not_le (v : value) : gt v zero = true -> le v zero = false.
Proof.
  unfold gt, le. destruct (ToNumber v) as [s|s| |s m e]; cbn;
    try destruct s; congruence.
Qed.

Lemma derived_row_lookup (item : object) :
  derived_row item !! "item" = Some (get item "item")
  /\ derived_row item !! "qty" = Some (get item "best_sell")
  /\ derived_row item !! "date" = Some (get item "date")
  /\ derived_row item !! "need" = Some (get item "need")
  /\ derived_row item !! "on_stock" = Some (get item "on_stock")
  /\ derived_row item !! "overload" = Some (get item "overload")
  /\ derived_row item !! "best_sell" = None.
Proof. unfold derived_row. repeat split; now simplify_map_eq. Qed.

Lemma derived_row_get (item : object) :
  get (derived_row item) "on_stock" = get item "on_stock"
  /\ get (derived_row item) "overload" = get item "overload"
  /\ get (derived_row item) "qty" = get item "best_sell"
  /\ get (derived_row item) "best_sell" = VUndefined.
Proof.
  destruct (derived_row_lookup item) as (_ & Hq & _ & _ & Hs & Ho & Hb).
  unfold get at 1 3 5 7. now rewrite Hq, Hs, Ho, Hb.
Qed.
End Values.

(** ** The reset-to-zero correction *)

Section Correction.
Context {rt : Runtime}.
Import ItemWeightMeasure.

Lemma or_Number (v : value) :
  or (Number v) (VNumber zero)
  = VNumber (match ToNumber v with
             | S754_nan | S754_zero _ => zero
             | x => x
             end).
Proof. unfold or, Number. cbn. now destruct (ToNumber v). Qed.

Lemma reset_qty_eq (r : object) :
  or (Number (coalesce (get r "qty") (get r "best_sell"))) (VNumber zero)
  = VNumber (reset_qty r).
Proof. unfold reset_qty. now rewrite or_Number. Qed.

Lemma num_eq_refl (x : number) : x <> S754_nan -> num_eq x x = true.
Proof.
  unfold num_eq, SFeqb. destruct x as [s|s| |s m e]; cbn; try congruence.
  - now destruct s.
  - intros _. rewrite Z.compare_refl.
    assert (H : Pos.compare_cont Eq m m = Eq) by apply Pos.compare_refl.
    rewrite H. now destruct s.
Qed.

Lemma number_or_zero_eq (v : value) :
  num_eq (match ToNumber v with
          | S754_nan | S754_zero _ => zero
          | x => x
          end) (number_or_zero v) = true.
Proof.
  unfold number_or_zero. destruct (ToNumber v) as [s|s| |s m e] eqn:E;
    try reflexivity; apply num_eq_refl; congruence.
Qed.

(** The quantity computed by the script equals, as numbers, the quantity
    the specification describes. *)
Lemma reset_qty_spec (r : object) : num_eq (reset_qty r) (spec_qty r) = true.
Proof.
  unfold reset_qty, spec_qty. rewrite or_Number. unfold coalesce.
  destruct (nullish (get r "qty")) eqn:Hq; cbn [negb].
  - destruct (nullish (get r "best_sell")) eqn:Hb; cbn [negb].
    + destruct (get r "best_sell"); try discriminate; reflexivity.
    + apply number_or_zero_eq.
  - apply number_or_zero_eq.
Qed.

Lemma reset_object_get (r : object) :
  get (reset_object r) "on_stock" = VNumber zero
  /\ get (reset_object r) "need" = VNumber (reset_qty r)
  /\ get (reset_object r) "overload" = VNumber zero
  /\ get (reset_object r) "qty" = get r "qty"
  /\ get (reset_object r) "best_sell" = get r "best_sell".
Proof. unfold reset_object, get. repeat split; now simplify_map_eq. Qed.

Lemma reset_object_other (r : object) (k : string) :
  k <> "on_stock" -> k <> "need" -> k <> "overload" ->
  reset_object r !! k = r !! k.
Proof. intros. unfold reset_object. now simplify_map_eq. Qed.

Lemma reset_qty_reset_object (r : object) : reset_qty (reset_object r) = reset_qty r.
Proof.
  destruct (reset_object_get r) as (_ & _ & _ & Hq & Hb).
  unfold reset_qty. now rewrite Hq, Hb.
Qed.

Lemma reset_object_idemp (r : object) : reset_object (reset_object r) = reset_object r.
Proof.
  unfold reset_object at 1. rewrite reset_qty_reset_object. unfold reset_object.
  apply map_eq. intros k.
  destruct (decide (k = "overload")) as [->|?]; [now simplify_map_eq|].
  destruct (decide (k = "need")) as [->|?]; [now simplify_map_eq|].
  destruct (decide (k = "on_stock")) as [->|?]; now simplify_map_eq.
Qed.

Lemma reset_row_run (l : loc) (f : form) :
  exec (reset_row l) f
  = mkForm (doc f) (tables f) (alter reset_object l (store f)) (trace f).
Proof.
  unfold reset_row, exec, bind, row_get, row_set. cbn.
  rewrite reset_qty_eq, !list_alter_alter_eq. f_equal.
  apply list_alter_ext; [|reflexivity].
  intros o Ho. rewrite Ho. reflexivity.
Qed.

Lemma forEach_reset_row (rows : list loc) (f : form) :
  exec (forEach rows reset_row) f
  = mkForm (doc f) (tables f) (reset_store rows (store f)) (trace f).
Proof.
  revert f. induction rows as [|l rows IH]; intros f.
  - now destruct f.
  - cbn [forEach]. rewrite exec_seq, IH, reset_row_run. reflexivity.
Qed.

Lemma reset_store_length (rows : list loc) (h : list object) :
  length (reset_store rows h) = length h.
Proof.
  revert h. induction rows as [|l rows IH]; intros h; [reflexivity|].
  cbn. unfold reset_store in IH. now rewrite IH, length_alter.
Qed.

Lemma reset_store_lookup_other (rows : list loc) (h : list object) (l : loc) :
  ~ In l rows -> reset_store rows h !! l = h !! l.
Proof.
  revert h. induction rows as [|l0 rows IH]; intros h Hl; [reflexivity|].
  cbn. unfold reset_store in IH. rewrite IH by (intros ?; apply Hl; now right).
  apply list_lookup_alter_ne. intros ->. apply Hl. now left.
Qed.

Lemma reset_store_lookup_in (rows : list loc) (h : list object) (l : loc) :
  In l rows -> reset_store rows h !! l = reset_object <$> h !! l.
Proof.
  revert h. induction rows as [|l0 rows IH]; intros h Hl; [destruct Hl|].
  change (reset_store (l0 :: rows) h) with (reset_store rows (alter reset_object l0 h)).
  destruct (in_dec Nat.eq_dec l rows) as [Hin|Hnin].
  - rewrite IH by exact Hin. destruct (decide (l0 = l)) as [->|Hne].
    + rewrite list_lookup_alter_eq. destruct (h !! l); cbn; [|reflexivity].
      now rewrite reset_object_idemp.
    + now rewrite list_lookup_alter_ne.
  - rewrite reset_store_lookup_other by exact Hnin.
    destruct Hl as [->|Hl]; [|contradiction]. apply list_lookup_alter_eq.
Qed.

Lemma rows_at_ext (h h' : list object) (ls : list loc) :
  (forall l, In l ls -> h' !! l = h !! l) -> rows_at h' ls = rows_at h ls.
Proof.
  unfold rows_at. induction ls as [|l ls IH]; intros H; [reflexivity|].
  change (omap ?g (l :: ls)) with (match g l with
                                   | Some y => y :: omap g ls
                                   | None => omap g ls
                                   end).
  cbv beta. rewrite (H l) by now left.
  rewrite IH by (intros; apply H; now right). reflexivity.
Qed.

Lemma rows_at_map (h h' : list object) (ls : list loc) :
  (forall l, In l ls -> h' !! l = reset_object <$> h !! l) ->
  rows_at h' ls = map reset_object (rows_at h ls).
Proof.
  unfold rows_at. induction ls as [|l ls IH]; intros H; [reflexivity|].
  change (omap ?g (l :: ls)) with (match g l with
                                   | Some y => y :: omap g ls
                                   | None => omap g ls
                                   end).
  cbv beta. rewrite (H l) by now left.
  rewrite IH by (intros; apply H; now right).
  now destruct (h !! l).
Qed.
End Correction.

Section ResetButton.
Context {rt : Runtime}.
Import ItemWeightMeasure.

Lemma reset_btn_empty (f : form) :
  table_locs f "negative_stock_items" = [] ->
  reset_to_zero_btn f
  = (Finished, mkForm (doc f) (tables f) (store f) (trace f ++ [no_rows_alert])).
Proof.
  intros He. unfold reset_to_zero_btn, bind, doc_table.
  fold (table_locs f "negative_stock_items"). rewrite He. reflexivity.
Qed.

Lemma reset_btn_asks (f : form) :
  table_locs f "negative_stock_items" <> [] ->
  exists on_yes, fst (reset_to_zero_btn f) = AwaitConfirm on_yes.
Proof.
  intros Hne. unfold reset_to_zero_btn, bind, doc_table.
  fold (table_locs f "negative_stock_items").
  destruct (table_locs f "negative_stock_items") as [|l ls]; [congruence|].
  cbn. eauto.
Qed.

Lemma reset_confirmed_run (f : form) :
  table_locs f "negative_stock_items" <> [] ->
  reset_confirmed f
  = mkForm (doc f) (tables f)
           (reset_store (table_locs f "negative_stock_items") (store f))
           (trace f ++ reset_events (length (table_locs f "negative_stock_items"))).
Proof.
  intros Hne. unfold reset_confirmed, reset_to_zero_btn.
  unfold bind at 1. unfold doc_table.
  fold (table_locs f "negative_stock_items").
  destruct (table_locs f "negative_stock_items") as [|l ls] eqn:E; [congruence|].
  cbn [length Nat.eqb]. unfold confirm. unfold bind at 1, emit at 1, ret at 1.
  cbn [answer_yes]. rewrite !exec_seq, forEach_reset_row.
  cbn [exec show_alert refresh_field emit snd doc tables store trace].
  unfold reset_events. rewrite <- !app_assoc. reflexivity.
Qed.

Lemma reset_confirmed_empty (f : form) :
  table_locs f "negative_stock_items" = [] ->
  reset_confirmed f
  = mkForm (doc f) (tables f) (store f) (trace f ++ [no_rows_alert]).
Proof. intros He. unfold reset_confirmed. now rewrite reset_btn_empty. Qed.
Lemma reset_confirmed_effect (f : form) :
  tables (reset_confirmed f) = tables f
  /\ doc (reset_confirmed f) = doc f
  /\ (forall l, ~ In l (table_locs f "negative_stock_items") ->
       store (reset_confirmed f) !! l = store f !! l)
  /\ (exists evs, trace (reset_confirmed f) = trace f ++ evs
                  /\ forall method args msg, ~ In (Call method args msg) evs).
Proof.
  destruct (table_locs f "negative_stock_items") as [|l0 ls] eqn:E.
  - rewrite (reset_confirmed_empty f E). repeat split.
    exists [no_rows_alert]. split; [reflexivity|].
    intros method args msg [H|[]]. discriminate H.
  - assert (Hne : table_locs f "negative_stock_items" <> []) by (rewrite E; discriminate).
    rewrite (reset_confirmed_run f Hne). rewrite E. cbn [tables store doc trace].
    repeat split.
    + intros l Hl. now apply reset_store_lookup_other.
    + eexists. split; [reflexivity|].
      intros method args msg [H|[H|[H|[]]]]; discriminate H.
Qed.

(** Reading a table through a store that agrees on its row references. *)
Lemma table_rows_frame (f f' : form) (t : string) :
  tables f' = tables f ->
  (forall l, In l (table_locs f t) -> store f' !! l = store f !! l) ->
  table_rows f' t = table_rows f t.
Proof.
  intros Ht Hs. unfold table_rows, table_locs. rewrite Ht. now apply rows_at_ext.
Qed.

(** X17: right after a report cycle a confirmed reset leaves the rows of
    [items] and [overload_items] as the distribution made them. *)
Lemma reset_after_generation (f : form) (r : response) :
  table_rows (reset_confirmed (generate_cycle f r)) "items"
  = map derived_row (results r)
  /\ table_rows (reset_confirmed (generate_cycle f r)) "overload_items"
     = map derived_row (List.filter overloaded (results r)).
Proof.
  destruct (generate_cycle_unshared f r) as (_ & Hi & Ho).
  destruct (generate_cycle_rows f r) as (Ri & _ & Ro & _).
  destruct (reset_confirmed_effect (generate_cycle f r)) as (Ht & _ & Hs & _).
  rewrite <- Ri, <- Ro. split; apply table_rows_frame; try exact Ht;
    intros l Hl; apply Hs; intros Hneg.
  - now apply (Hi l).
  - now apply (Ho l).
Qed.
End ResetButton.

(** ** Dates *)

Lemma char_digit_digit_char (d : Z) :
  0 <= d <= 9 -> char_digit (digit_char d) = Some d.
Proof.
  intros Hd.
  assert (H : d = 0 \/ d = 1 \/ d = 2 \/ d = 3 \/ d = 4 \/ d = 5 \/ d = 6 \/ d = 7
              \/ d = 8 \/ d = 9) by lia.
  repeat (destruct H as [-> | H]; [reflexivity|]). now subst.
Qed.

Lemma valid_bounds (d : date) :
  valid d = true ->
  0 <= year d <= 9999 /\ 1 <= month d <= 12
  /\ 1 <= day d <= days_in_month (year d) (month d).
Proof. unfold valid. rewrite !andb_true_iff, !Z.leb_le. lia. Qed.

Lemma days_in_month_bounds (y m : Z) : 28 <= days_in_month y m <= 31.
Proof.
  unfold days_in_month.
  repeat match goal with
         | |- context [match ?x with _ => _ end] => destruct x
         end; lia.
Qed.

Lemma str_to_obj_obj_to_str (d : date) :
  valid d = true -> str_to_obj (obj_to_str (Some d)) = Some d.
Proof.
  intros Hv. destruct (valid_bounds d Hv) as (Hy & Hm & Hd).
  pose proof (days_in_month_bounds (year d) (month d)) as Hdim.
  unfold obj_to_str. rewrite Hv. cbv [pad4 pad2 String.append str_to_obj].
  rewrite !char_digit_digit_char by (Z.div_mod_to_equations; lia).
  replace (1000 * (year d / 1000) + 100 * (year d / 100 mod 10)
           + 10 * (year d / 10 mod 10) + year d mod 10) with (year d)
    by (Z.div_mod_to_equations; lia).
  replace (10 * (month d / 10) + month d mod 10) with (month d)
    by (Z.div_mod_to_equations; lia).
  replace (10 * (day d / 10) + day d mod 10) with (day d)
    by (Z.div_mod_to_equations; lia).
  destruct d as [y m dd]. cbn [year month day] in *. now rewrite Hv.
Qed.

Lemma date_add_months_minus_12 (d : date) :
  1 <= month d <= 12 ->
  date_add_months d (-12)
  = mkDate (year d - 1) (month d)
           (Z.min (day d) (days_in_month (year d - 1) (month d))).
Proof.
  intros Hm. unfold date_add_months.
  assert (Hq : (year d * 12 + (month d - 1) + -12) / 12 = year d - 1)
    by (Z.div_mod_to_equations; lia).
  assert (Hr : (year d * 12 + (month d - 1) + -12) mod 12 + 1 = month d)
    by (Z.div_mod_to_equations; lia).
  cbv zeta. now rewrite Hq, Hr.
Qed.

Lemma default_from_date (today : date) :
  valid today = true -> 1 <= year today ->
  valid (first_day_a_year_before today) = true
  /\ obj_to_str (setDate (str_to_obj (add_months (obj_to_str (Some today)) (-12))) 1)
     = obj_to_str (Some (first_day_a_year_before today)).
Proof.
  intros Hv Hy. destruct (valid_bounds today Hv) as (Hy' & Hm & Hd).
  pose proof (days_in_month_bounds (year today - 1) (month today)) as Hdim.
  assert (Hv1 : valid (first_day_a_year_before today) = true).
  { unfold valid, first_day_a_year_before. cbn [year month day].
    rewrite !andb_true_iff, !Z.leb_le. lia. }
  split; [exact Hv1|].
  unfold add_months. rewrite str_to_obj_obj_to_str by exact Hv.
  cbn [option_map]. rewrite date_add_months_minus_12 by exact Hm.
  rewrite str_to_obj_obj_to_str.
  - reflexivity.
  - unfold valid. cbn [year month day]. rewrite !andb_true_iff, !Z.leb_le. lia.
Qed.

(** ** The default date range *)

Lemma onload_run (today : date) (f : form) :
  exec (ItemWeightMeasure.onload today) f
  = mkForm (fill "to_date" (VString (obj_to_str (Some today)))
              (fill "from_date" (VString (default_from today)) (doc f)))
           (tables f) (store f) (trace f).
Proof.
  unfold ItemWeightMeasure.onload, ItemWeightMeasure.setDefaultDates, exec, bind, doc_get,
    fill, default_from.
  cbn [fst snd doc]. destruct f as [d t h tr]. cbn [doc tables store trace].
  destruct (ToBoolean (get d "from_date")); cbn [negb when ret set_value doc];
    match goal with
    | |- context [ToBoolean (get ?x "to_date")] =>
        destruct (ToBoolean (get x "to_date"))
    end; reflexivity.
Qed.

Lemma fill_lookup_ne (k k' : string) (v : value) (d : object) :
  k <> k' -> fill k v d !! k' = d !! k'.
Proof. intros Hne. unfold fill. destruct (ToBoolean _); [reflexivity|]. now simplify_map_eq. Qed.

Lemma fill_set (k : string) (v : value) (d : object) :
  ToBoolean (get d k) = true -> fill k v d = d.
Proof. intros H. unfold fill. now rewrite H. Qed.

Lemma fill_unset (k : string) (v : value) (d : object) :
  ToBoolean (get d k) = false -> fill k v d !! k = Some v.
Proof. intros H. unfold fill. rewrite H. now simplify_map_eq. Qed.

(** ** The legacy script and the two response shapes *)

Lemma legacy_generate_btn_run (f : form) :
  Legacy.generate_btn f = (AwaitResponse Legacy.generate_callback, legacy_requested f).
Proof. reflexivity. Qed.

(** The Generate button of the legacy script leaves the tables as they are,
    and so does the whole cycle when the response is empty. *)
Lemma legacy_generate_never_clears (f : form) (r : response) :
  tables (snd (Legacy.generate_btn f)) = tables f
  /\ (results r = [] ->
      tables (legacy_cycle f r) = tables f /\ store (legacy_cycle f r) = store f).
Proof.
  split; [reflexivity|]. intros Hempty. destruct r as [rs].
  cbn [results] in Hempty. subst rs. now split.
Qed.

Lemma forEach_legacy (rs : list object) (f : form) :
  let f' := exec (forEach rs (fun item => add_child "items" (Legacy.item_row item) ;; ret tt)) f in
  in_store f "items" ->
  table_rows f' "items" = table_rows f "items" ++ map Legacy.item_row rs
  /\ in_store f' "items"
  /\ (forall n, n <> "items" -> table_locs f' n = table_locs f n)
  /\ doc f' = doc f /\ trace f' = trace f.
Proof.
  revert f. induction rs as [|item rs IH]; intros f f' Hin; subst f'.
  - cbn [forEach map]. change (exec (ret tt) f) with f. rewrite app_nil_r.
    now repeat split.
  - cbn [forEach]. rewrite !exec_seq. change (exec (ret tt) ?g) with g.
    set (f1 := exec (add_child "items" (Legacy.item_row item)) f).
    assert (Hin1 : in_store f1 "items") by now apply in_store_add_child.
    destruct (IH f1 Hin1) as (R & W & L & D & T).
    rewrite R, D, T. unfold f1 at 1. rewrite table_rows_add_child_eq by exact Hin.
    cbn [map]. rewrite <- app_assoc. repeat split; try assumption.
    intros n Hn. rewrite L by exact Hn. unfold f1.
    apply table_locs_add_child_ne. congruence.
Qed.

Lemma legacy_cycle_rows (f : form) (r : response) :
  in_store f "items" ->
  table_rows (legacy_cycle f r) "items"
  = table_rows f "items" ++ map Legacy.item_row (results r)
  /\ (forall n, n <> "items" -> table_locs (legacy_cycle f r) n = table_locs f n).
Proof.
  intros Hin. unfold legacy_cycle. rewrite legacy_generate_btn_run.
  cbn [respond]. unfold Legacy.generate_callback. rewrite !exec_seq.
  set (f0 := exec (msgprint _) (exec (console_log _) (legacy_requested f))).
  assert (Hin0 : in_store f0 "items") by exact Hin.
  destruct (forEach_legacy (results r) f0 Hin0) as (R & _ & L & _).
  set (f1 := exec (forEach _ _) f0) in *.
  change (table_rows (exec (refresh_field _) f1) ?n) with (table_rows f1 n).
  split; [exact R|]. intros n Hn.
  change (table_locs (exec (refresh_field _) f1) n) with (table_locs f1 n).
  now rewrite L.
Qed.

Lemma item_row_reads_as_normalized (item : object) (k : string) :
  get (Legacy.item_row item) k
  = get (ItemWeightMeasure.derived_row (normalize_legacy item)) k.
Proof.
  unfold Legacy.item_row, ItemWeightMeasure.derived_row, normalize_legacy, get.
  destruct (decide (k = "item")) as [->|?]; [now simplify_map_eq|].
  destruct (decide (k = "qty")) as [->|?]; [now simplify_map_eq|].
  destruct (decide (k = "date")) as [->|?]; [now simplify_map_eq|].
  destruct (decide (k = "need")) as [->|?]; [now simplify_map_eq|].
  destruct (decide (k = "on_stock")) as [->|?]; [now simplify_map_eq|].
  destruct (decide (k = "overload")) as [->|?]; now simplify_map_eq.
Qed.

Lemma normalized_rows_neither (rt : Runtime) (rs : list object) :
  List.filter negative_stock (map normalize_legacy rs) = []
  /\ List.filter overloaded (map normalize_legacy rs) = [].
Proof. induction rs as [|item rs [IHn IHo]]; [now split|]. cbn. now rewrite IHn, IHo. Qed.

(** * The claims *)

Section Claims.
Context {rt : Runtime}.
Import ItemWeightMeasure.

(** C1: after a report cycle, every response row with [on_stock < 0] has
    its derived row in both [items] and [negative_stock_items], every
    response row with [overload > 0] has it in both [items] and
    [overload_items], no row of [negative_stock_items] has
    [on_stock >= 0] and no row of [overload_items] has [overload <= 0]. *)
Theorem distribution_membership (f : form) (r : response) :
  (forall item, In item (results r) -> lt (get item "on_stock") zero = true ->
     In (derived_row item) (table_rows (generate_cycle f r) "items")
     /\ In (derived_row item) (table_rows (generate_cycle f r) "negative_stock_items"))
  /\ (forall item, In item (results r) -> gt (get item "overload") zero = true ->
     In (derived_row item) (table_rows (generate_cycle f r) "items")
     /\ In (derived_row item) (table_rows (generate_cycle f r) "overload_items"))
  /\ (forall row, In row (table_rows (generate_cycle f r) "negative_stock_items") ->
     lt (get row "on_stock") zero = true /\ ge (get row "on_stock") zero = false)
  /\ (forall row, In row (table_rows (generate_cycle f r) "overload_items") ->
     gt (get row "overload") zero = true /\ le (get row "overload") zero = false).
Proof.
  destruct (generate_cycle_rows f r) as (Ri & Rn & Ro & _).
  rewrite Ri, Rn, Ro. split; [|split; [|split]].
  - intros item Hin Hneg. split; [now apply in_map|].
    apply in_map, filter_In. now split.
  - intros item Hin Hov. split; [now apply in_map|].
    apply in_map, filter_In. now split.
  - intros row Hrow.
    apply in_map_iff in Hrow as (item & <- & Hin).
    apply filter_In in Hin as [_ Hneg].
    destruct (derived_row_get item) as (-> & _).
    split; [exact Hneg|now apply lt_zero_not_ge].
  - intros row Hrow.
    apply in_map_iff in Hrow as (item & <- & Hin).
    apply filter_In in Hin as [_ Hov].
    destruct (derived_row_get item) as (_ & -> & _).
    split; [exact Hov|now apply gt_zero_not_le].
Qed.

(** C2: after a report cycle [items] holds exactly one derived row per
    response row, as many row references as there are response rows, and
    each of the three tables lists its rows in the order of the response. *)
Theorem items_one_per_result_in_order (f : form) (r : response) :
  table_rows (generate_cycle f r) "items" = map derived_row (results r)
  /\ length (table_locs (generate_cycle f r) "items") = length (results r)
  /\ table_rows (generate_cycle f r) "negative_stock_items"
     = map derived_row (List.filter (fun item => lt (get item "on_stock") zero) (results r))
  /\ table_rows (generate_cycle f r) "overload_items"
     = map derived_row (List.filter (fun item => gt (get item "overload") zero) (results r)).
Proof.
  destruct (generate_cycle_rows f r) as (Ri & Rn & Ro & Wi & _).
  repeat split; try assumption.
  rewrite <- (in_store_length _ _ Wi), Ri. apply length_map.
Qed.

(** C10: after a report cycle the three tables hold, row for row and in
    order, the object literal built from each response row ([items] from all
    of them, the other two from the rows that pass their test); that literal
    stores the response row's [best_sell] under [qty], copies [item],
    [date], [need], [on_stock] and [overload] as they are and has no other
    property, so no [best_sell]; hence every row of [negative_stock_items]
    has the property [qty], holding its response row's [best_sell], which
    is neither null nor undefined when that [best_sell] is not, and the
    reset computes its quantity on such a row from [qty] alone. *)
Theorem derived_row_stores_best_sell_as_qty (f : form) (r : response) :
  table_rows (generate_cycle f r) "items" = map derived_row (results r)
  /\ table_rows (generate_cycle f r) "negative_stock_items"
     = map derived_row
         (List.filter (fun item => lt (get item "on_stock") zero) (results r))
  /\ table_rows (generate_cycle f r) "overload_items"
     = map derived_row
         (List.filter (fun item => gt (get item "overload") zero) (results r))
  /\ (forall item,
        derived_row item !! "qty" = Some (get item "best_sell")
        /\ derived_row item !! "best_sell" = None
        /\ derived_row item !! "item" = Some (get item "item")
        /\ derived_row item !! "date" = Some (get item "date")
        /\ derived_row item !! "need" = Some (get item "need")
        /\ derived_row item !! "on_stock" = Some (get item "on_stock")
        /\ derived_row item !! "overload" = Some (get item "overload")
        /\ (forall k, k <> "item" -> k <> "qty" -> k <> "date" -> k <> "need" ->
              k <> "on_stock" -> k <> "overload" -> derived_row item !! k = None))
  /\ (forall row,
        In row (table_rows (generate_cycle f r) "negative_stock_items") ->
        is_Some (row !! "qty") /\ row !! "best_sell" = None
        /\ VNumber (reset_qty row) = or (Number (get row "qty")) (VNumber zero))
  /\ (forall item,
        In item (results r) -> lt (get item "on_stock") zero = true ->
        In (derived_row item) (table_rows (generate_cycle f r) "negative_stock_items")
        /\ get (derived_row item) "qty" = get item "best_sell"
        /\ (nullish (get item "best_sell") = false ->
              nullish (get (derived_row item) "qty") = false
              /\ coalesce (get (derived_row item) "qty")
                          (get (derived_row item) "best_sell")
                 = get item "best_sell")).
Proof.
  destruct (generate_cycle_rows f r) as (Ri & Rn & Ro & _).
  split; [exact Ri|]. split; [exact Rn|]. split; [exact Ro|].
  split; [|split].
  - intros item.
    destruct (derived_row_lookup item) as (Li & Lq & Ld & Ln & Ls & Lo & Lb).
    split; [exact Lq|]. split; [exact Lb|]. split; [exact Li|].
    split; [exact Ld|]. split; [exact Ln|]. split; [exact Ls|].
    split; [exact Lo|].
    intros k K1 K2 K3 K4 K5 K6. unfold derived_row. now simplify_map_eq.
  - intros row Hrow. rewrite Rn in Hrow.
    apply in_map_iff in Hrow as (item & <- & _).
    destruct (derived_row_lookup item) as (_ & Hq & _ & _ & _ & _ & Hb).
    split; [rewrite Hq; eauto|]. split; [exact Hb|].
    rewrite <- reset_qty_eq.
    destruct (derived_row_get item) as (_ & _ & -> & ->).
    unfold coalesce, or, Number.
    destruct (get item "best_sell"); reflexivity.
  - intros item Hin Hneg.
    destruct (derived_row_get item) as (_ & _ & Hq & Hb).
    split; [|split].
    + rewrite Rn. apply in_map, filter_In. now split.
    + exact Hq.
    + intros Hbs. rewrite Hq, Hb. unfold coalesce. now rewrite Hbs.
Qed.

(** X16: the Generate button of [item_weight_measure.js] empties the three
    tables before it sends the request, and an empty response leaves all
    three empty. *)
Lemma generate_btn_clears_tables (f : form) (r : response) :
  snd (generate_btn f) = requested f
  /\ table_locs (requested f) "items" = []
  /\ table_locs (requested f) "negative_stock_items" = []
  /\ table_locs (requested f) "overload_items" = []
  /\ (results r = [] ->
      table_locs (generate_cycle f r) "items" = []
      /\ table_locs (generate_cycle f r) "negative_stock_items" = []
      /\ table_locs (generate_cycle f r) "overload_items" = []).
Proof.
  rewrite generate_btn_run. destruct (requested_tables f) as (Hi & Hn & Ho).
  do 4 (split; [assumption || reflexivity|]).
  intros Hempty. rewrite generate_cycle_run. destruct r as [rs].
  cbn [results] in Hempty. subst rs. now repeat split.
Qed.

(** C4: a confirmed reset on a non-empty [negative_stock_items] asks for
    confirmation, keeps the rows of the table in place, and leaves every
    row with [on_stock] 0, [overload] 0 and [need] the quantity computed
    from the row: its [qty], else its [best_sell] when [qty] is absent,
    and 0 when that is not a number. *)
Theorem reset_sets_rows_to_zero (f : form) :
  table_locs f "negative_stock_items" <> [] ->
  (exists on_yes, fst (reset_to_zero_btn f) = AwaitConfirm on_yes)
  /\ table_locs (reset_confirmed f) "negative_stock_items"
     = table_locs f "negative_stock_items"
  /\ table_rows (reset_confirmed f) "negative_stock_items"
     = map reset_object (table_rows f "negative_stock_items")
  /\ (forall row, In row (table_rows (reset_confirmed f) "negative_stock_items") ->
       get row "on_stock" = VNumber zero
       /\ get row "need" = VNumber (reset_qty row)
       /\ get row "overload" = VNumber zero
       /\ num_eq (reset_qty row) (spec_qty row) = true).
Proof.
  intros Hne.
  assert (Hrows : table_rows (reset_confirmed f) "negative_stock_items"
                  = map reset_object (table_rows f "negative_stock_items")).
  { rewrite (reset_confirmed_run f Hne). unfold table_rows, table_locs.
    cbn [tables store]. apply rows_at_map. intros l Hl.
    now apply reset_store_lookup_in. }
  split; [now apply reset_btn_asks|].
  split; [now rewrite (reset_confirmed_run f Hne)|].
  split; [exact Hrows|].
  intros row Hrow. rewrite Hrows in Hrow.
  apply in_map_iff in Hrow as (before & <- & _).
  destruct (reset_object_get before) as (Hs & Hn & Ho & _).
  split; [exact Hs|]. split; [now rewrite reset_qty_reset_object|].
  split; [exact Ho|]. apply reset_qty_spec.
Qed.

(** C5: on an empty [negative_stock_items] (no table, or no rows in it)
    the reset shows one alert and returns: no dialog is opened, nothing is
    left to confirm, and the document, the tables and the rows are as
    before. *)
Theorem reset_on_empty_table_is_noop (f : form) :
  table_locs f "negative_stock_items" = [] ->
  reset_to_zero_btn f
  = (Finished,
     mkForm (doc f) (tables f) (store f)
            (trace f ++ [ShowAlert "No rows in Negative Stock Items." "orange"]))
  /\ doc (reset_confirmed f) = doc f
  /\ tables (reset_confirmed f) = tables f
  /\ store (reset_confirmed f) = store f
  /\ trace (reset_confirmed f)
     = trace f ++ [ShowAlert "No rows in Negative Stock Items." "orange"].
Proof.
  intros He.
  assert (Hbtn : reset_to_zero_btn f
                 = (Finished, mkForm (doc f) (tables f) (store f)
                                     (trace f ++ [no_rows_alert]))).
  { unfold reset_to_zero_btn, bind, doc_table.
    fold (table_locs f "negative_stock_items"). rewrite He. reflexivity. }
  split; [exact Hbtn|].
  unfold reset_confirmed. rewrite Hbtn. cbn [answer_yes].
  now repeat split.
Qed.

(** C9: a confirmed reset changes no row object other than those of
    [negative_stock_items]: when these are not shared with [items] and
    [overload_items], the rows of those two tables read as before; the
    tables and the document fields are unchanged and no request is sent. *)
Theorem reset_is_local (f : form) :
  (forall l, In l (table_locs f "negative_stock_items") ->
     ~ In l (table_locs f "items") /\ ~ In l (table_locs f "overload_items")) ->
  table_rows (reset_confirmed f) "items" = table_rows f "items"
  /\ table_rows (reset_confirmed f) "overload_items" = table_rows f "overload_items"
  /\ (forall l, ~ In l (table_locs f "negative_stock_items") ->
       store (reset_confirmed f) !! l = store f !! l)
  /\ tables (reset_confirmed f) = tables f
  /\ doc (reset_confirmed f) = doc f
  /\ (forall method args msg,
       In (Call method args msg) (trace (reset_confirmed f)) ->
       In (Call method args msg) (trace f)).
Proof.
  intros Hsep.
  destruct (reset_confirmed_effect f) as (Ht & Hd & Hs & evs & Htr & Hev).
  split; [|split; [|split; [exact Hs|split; [exact Ht|split; [exact Hd|]]]]].
  - apply table_rows_frame; [exact Ht|]. intros l Hl. apply Hs. intros Hneg.
    now apply (proj1 (Hsep l Hneg)).
  - apply table_rows_frame; [exact Ht|]. intros l Hl. apply Hs. intros Hneg.
    now apply (proj2 (Hsep l Hneg)).
  - intros method args msg Hin. rewrite Htr in Hin.
    apply in_app_or in Hin as [Hin|Hin]; [exact Hin|]. now apply Hev in Hin.
Qed.

End Claims.

(** C6: with both dates unset, loading the form sets [to_date] to today and
    [from_date] to day 1 of the same month one year earlier (the month 12
    calendar months before today), both written [YYYY-MM-DD]. *)
Theorem onload_default_range (today : date) (f : form) :
  valid today = true -> 1 <= year today ->
  ToBoolean (get (doc f) "from_date") = false ->
  ToBoolean (get (doc f) "to_date") = false ->
  get (doc (exec (ItemWeightMeasure.onload today) f)) "to_date"
  = VString (obj_to_str (Some today))
  /\ get (doc (exec (ItemWeightMeasure.onload today) f)) "from_date"
     = VString (obj_to_str (Some (first_day_a_year_before today)))
  /\ str_to_obj (obj_to_str (Some today)) = Some today
  /\ str_to_obj (obj_to_str (Some (first_day_a_year_before today)))
     = Some (first_day_a_year_before today).
Proof.
  intros Hv Hy Hfrom Hto. rewrite onload_run. cbn [doc].
  destruct (default_from_date today Hv Hy) as (Hv1 & Hstr).
  fold (default_from today) in Hstr.
  assert (Hto' : ToBoolean (get (fill "from_date" (VString (default_from today)) (doc f))
                                "to_date") = false).
  { unfold get. rewrite fill_lookup_ne by discriminate. exact Hto. }
  split; [|split; [|split]].
  - unfold get. now rewrite (fill_unset _ _ _ Hto').
  - unfold get. rewrite fill_lookup_ne by discriminate.
    rewrite (fill_unset _ _ _ Hfrom). cbn [default]. now rewrite Hstr.
  - now apply str_to_obj_obj_to_str.
  - now apply str_to_obj_obj_to_str.
Qed.

(** C7: loading the form leaves a [from_date] that already holds a value as
    it is, likewise a [to_date], and touches no other field, table or row. *)
Theorem onload_keeps_supplied_dates (today : date) (f : form) :
  (ToBoolean (get (doc f) "from_date") = true ->
     doc (exec (ItemWeightMeasure.onload today) f) !! "from_date"
     = doc f !! "from_date")
  /\ (ToBoolean (get (doc f) "to_date") = true ->
     doc (exec (ItemWeightMeasure.onload today) f) !! "to_date" = doc f !! "to_date")
  /\ (forall k, k <> "from_date" -> k <> "to_date" ->
     doc (exec (ItemWeightMeasure.onload today) f) !! k = doc f !! k)
  /\ tables (exec (ItemWeightMeasure.onload today) f) = tables f
  /\ store (exec (ItemWeightMeasure.onload today) f) = store f
  /\ trace (exec (ItemWeightMeasure.onload today) f) = trace f.
Proof.
  rewrite onload_run. cbn [doc tables store trace].
  split; [|split; [|split; [|now repeat split]]].
  - intros Hfrom. rewrite fill_lookup_ne by discriminate. now rewrite fill_set.
  - intros Hto. rewrite fill_set; [now apply fill_lookup_ne|].
    unfold get. rewrite fill_lookup_ne by discriminate. exact Hto.
  - intros k Hk1 Hk2. rewrite !fill_lookup_ne by congruence. reflexivity.
Qed.

(** C3: the Generate button of the legacy script sends the request without
    emptying any table, so after an empty response [items] still holds the
    row of the previous report, where the button of
    [item_weight_measure.js] leaves it empty. *)
Theorem legacy_generate_keeps_stale_rows :
  table_locs (snd (Legacy.generate_btn stale_form)) "items" = [0%nat]
  /\ table_rows (legacy_cycle stale_form (mkResponse [])) "items" = [stale_row]
  /\ table_rows (@generate_cycle sample_runtime stale_form (mkResponse [])) "items" = [].
Proof. repeat split; vm_compute; reflexivity. Qed.

(** C8, as stated, fails: distributing a response in the legacy shape does
    not give the collections that distributing its normalized form gives. *)
Lemma legacy_shape_not_normalized :
  ~ (forall (rt : Runtime) (f : form) (r : response),
       same_collections (generate_cycle f r) (generate_cycle f (normalized r))).
Proof.
  intros H. destruct (H sample_runtime empty_form legacy_response) as [Hitems _].
  apply (f_equal (map (fun o => get o "item"))) in Hitems.
  vm_compute in Hitems. discriminate Hitems.
Qed.

(** C8, amended: there is no normalization; each script reads one shape.
    On a form whose [items] table is empty, the legacy script turns a
    legacy response into one [items] row per response row, in order, and
    each such row reads, under every property, as the [items] row that the
    distribution of [item_weight_measure.js] makes of the normalized row;
    the legacy script leaves [negative_stock_items] and [overload_items]
    as they are, and the distribution of a normalized response puts no row
    in them. *)
Theorem legacy_items_read_as_normalized (rt : Runtime) (f : form) (r : response) :
  table_locs f "items" = [] ->
  table_rows (legacy_cycle f r) "items" = map Legacy.item_row (results r)
  /\ table_rows (generate_cycle f (normalized r)) "items"
     = map ItemWeightMeasure.derived_row (map normalize_legacy (results r))
  /\ (forall item k,
        get (Legacy.item_row item) k
        = get (ItemWeightMeasure.derived_row (normalize_legacy item)) k)
  /\ table_locs (legacy_cycle f r) "negative_stock_items"
     = table_locs f "negative_stock_items"
  /\ table_locs (legacy_cycle f r) "overload_items" = table_locs f "overload_items"
  /\ table_rows (generate_cycle f (normalized r)) "negative_stock_items" = []
  /\ table_rows (generate_cycle f (normalized r)) "overload_items" = [].
Proof.
  intros Hempty.
  assert (Hin : in_store f "items") by (unfold in_store; rewrite Hempty; constructor).
  destruct (legacy_cycle_rows f r Hin) as (R & L).
  destruct (generate_cycle_rows f (normalized r)) as (Ri & Rn & Ro & _).
  destruct (normalized_rows_neither rt (results r)) as (Fn & Fo).
  cbn [normalized results] in Ri, Rn, Ro. rewrite Fn in Rn. rewrite Fo in Ro.
  assert (Hrows : table_rows f "items" = [])
    by (unfold table_rows; now rewrite Hempty).
  rewrite Hrows in R. cbn [app] in R.
  repeat split; try assumption.
  - intros item k. apply item_row_reads_as_normalized.
  - now apply L.
  - now apply L.
Qed.

(** ** The claims on the sample data *)

(** The end-to-end example of the specification: [items] has the two rows,
    [negative_stock_items] is [A] and [overload_items] is [B]. *)
Example end_to_end_example :
  map (fun o => get o "item") (table_rows sample_form "items")
  = [VString "A"; VString "B"]
  /\ map (fun o => get o "item") (table_rows sample_form "negative_stock_items")
     = [VString "A"]
  /\ map (fun o => get o "item") (table_rows sample_form "overload_items")
     = [VString "B"].
Proof. repeat split; vm_compute; reflexivity. Qed.

(** The reset example of the specification: the row ends with [on_stock] 0,
    [need] 5 and [overload] 0. *)
Example reset_example :
  map (fun o => (get o "on_stock", get o "need", get o "overload"))
      (table_rows (@reset_confirmed sample_runtime negative_form) "negative_stock_items")
  = [(VNumber zero, VNumber (of_Z 5), VNumber zero)].
Proof. vm_compute. reflexivity. Qed.

Lemma distribution_membership_witness :
  In (ItemWeightMeasure.derived_row row_A) (table_rows sample_form "negative_stock_items")
  /\ In (ItemWeightMeasure.derived_row row_B) (table_rows sample_form "overload_items").
Proof.
  split.
  - apply (proj1 (@distribution_membership sample_runtime empty_form sample_response) row_A).
    + left. reflexivity.
    + reflexivity.
  - apply (proj1 (proj2 (@distribution_membership sample_runtime empty_form sample_response))
             row_B).
    + right. left. reflexivity.
    + reflexivity.
Defined.

Lemma derived_row_stores_best_sell_as_qty_witness :
  table_rows sample_form "negative_stock_items" = [ItemWeightMeasure.derived_row row_A]
  /\ ItemWeightMeasure.derived_row row_A !! "qty" = Some (VNumber (of_Z 10))
  /\ ItemWeightMeasure.derived_row row_A !! "best_sell" = None
  /\ coalesce (get (ItemWeightMeasure.derived_row row_A) "qty")
              (get (ItemWeightMeasure.derived_row row_A) "best_sell")
     = VNumber (of_Z 10).
Proof.
  destruct (@derived_row_stores_best_sell_as_qty sample_runtime empty_form
              sample_response) as (_ & Hn & _ & Hrow & _ & Hneg).
  destruct (Hrow row_A) as (Hq & Hb & _).
  destruct (Hneg row_A (or_introl eq_refl) eq_refl) as (_ & _ & Hc).
  split; [exact Hn|]. split; [exact Hq|]. split; [exact Hb|].
  exact (proj2 (Hc eq_refl)).
Defined.

Lemma reset_sets_rows_to_zero_witness :
  table_locs sample_form "negative_stock_items" <> []
  /\ table_rows (@reset_confirmed sample_runtime sample_form) "negative_stock_items"
     = map (@reset_object sample_runtime) (table_rows sample_form "negative_stock_items").
Proof.
  assert (H : table_locs sample_form "negative_stock_items" <> [])
    by (vm_compute; discriminate).
  split; [exact H|].
  exact (proj1 (proj2 (proj2 (@reset_sets_rows_to_zero sample_runtime sample_form H)))).
Defined.

Lemma reset_on_empty_table_is_noop_witness :
  table_locs empty_form "negative_stock_items" = []
  /\ @ItemWeightMeasure.reset_to_zero_btn sample_runtime empty_form
     = (Finished,
        mkForm ∅ ∅ [] [ShowAlert "No rows in Negative Stock Items." "orange"]).
Proof.
  split; [reflexivity|].
  exact (proj1 (@reset_on_empty_table_is_noop sample_runtime empty_form eq_refl)).
Defined.

Lemma reset_is_local_witness :
  table_rows (@reset_confirmed sample_runtime sample_form) "items"
  = table_rows sample_form "items".
Proof.
  assert (H : forall l, In l (table_locs sample_form "negative_stock_items") ->
                ~ In l (table_locs sample_form "items")
                /\ ~ In l (table_locs sample_form "overload_items")).
  { vm_compute. intros l [<-|[]].
    split; intros H; repeat (destruct H as [H|H]; [discriminate H|]); exact H. }
  exact (proj1 (@reset_is_local sample_runtime sample_form H)).
Defined.

Lemma onload_default_range_witness :
  valid leap_day = true
  /\ get (doc (exec (ItemWeightMeasure.onload leap_day) undated_form)) "to_date"
     = VString "2024-02-29"
  /\ get (doc (exec (ItemWeightMeasure.onload leap_day) undated_form)) "from_date"
     = VString "2023-02-01".
Proof.
  assert (Hy : 1 <= year leap_day) by (cbn; lia).
  destruct (onload_default_range leap_day undated_form eq_refl Hy eq_refl eq_refl)
    as (Hto & Hfrom & _).
  split; [reflexivity|]. split; [exact Hto|exact Hfrom].
Defined.

Lemma onload_keeps_supplied_dates_witness :
  doc (exec (ItemWeightMeasure.onload leap_day) dated_form) !! "from_date"
  = Some (VString "2024-01-01")
  /\ doc (exec (ItemWeightMeasure.onload leap_day) dated_form) !! "to_date"
     = Some (VString "2024-12-31").
Proof.
  destruct (onload_keeps_supplied_dates leap_day dated_form) as (Hfrom & Hto & _).
  split.
  - rewrite (Hfrom eq_refl). reflexivity.
  - rewrite (Hto eq_refl). reflexivity.
Defined.

Lemma legacy_items_read_as_normalized_witness :
  table_locs empty_form "items" = []
  /\ table_rows (legacy_cycle empty_form legacy_response) "items"
     = [Legacy.item_row legacy_row].
Proof.
  split; [reflexivity|].
  exact (proj1 (legacy_items_read_as_normalized sample_runtime empty_form
                  legacy_response eq_refl)).
Defined.

(** * Further properties of the scripts *)

(** ** Loading the form *)

Lemma obj_to_str_truthy (o : DateObj) : ToBoolean (VString (obj_to_str o)) = true.
Proof.
  destruct o as [d|]; [|reflexivity].
  cbv [obj_to_str pad4 String.append]. now destruct (valid d).
Qed.

Lemma fill_truthy (k : string) (v : value) (d : object) :
  ToBoolean v = true -> ToBoolean (get (fill k v d) k) = true.
Proof.
  intros Hv. unfold fill. destruct (ToBoolean (get d k)) eqn:E; [exact E|].
  unfold get. now rewrite lookup_insert_eq.
Qed.

Lemma onload_dates_truthy (today : date) (f : form) :
  ToBoolean (get (doc (exec (ItemWeightMeasure.onload today) f)) "from_date") = true
  /\ ToBoolean (get (doc (exec (ItemWeightMeasure.onload today) f)) "to_date") = true.
Proof.
  rewrite onload_run. cbn [doc]. split.
  - unfold get at 1. rewrite fill_lookup_ne by discriminate.
    apply fill_truthy, obj_to_str_truthy.
  - apply fill_truthy, obj_to_str_truthy.
Qed.

(** X1: after [onload] both date fields hold a value, whatever the form held
    and whatever day it is, and a second [onload], on the same or on another
    day, changes nothing. *)
Theorem onload_settles_the_dates (today later : date) (f : form) :
  ToBoolean (get (doc (exec (ItemWeightMeasure.onload today) f)) "from_date") = true
  /\ ToBoolean (get (doc (exec (ItemWeightMeasure.onload today) f)) "to_date") = true
  /\ exec (ItemWeightMeasure.onload later) (exec (ItemWeightMeasure.onload today) f)
     = exec (ItemWeightMeasure.onload today) f.
Proof.
  destruct (onload_dates_truthy today f) as (Hfrom & Hto).
  split; [exact Hfrom|]. split; [exact Hto|].
  rewrite (onload_run later). set (f1 := exec (ItemWeightMeasure.onload today) f) in *.
  rewrite (fill_set "from_date") by exact Hfrom.
  rewrite (fill_set "to_date") by exact Hto.
  now destruct f1.
Qed.

(** X2: each of the two date fields is filled on its own: an unset
    [from_date] becomes day 1 of the same month one year before today also
    when [to_date] is set, and an unset [to_date] becomes today also when
    [from_date] is set. *)
Theorem onload_fills_each_unset_date (today : date) (f : form) :
  valid today = true -> 1 <= year today ->
  (ToBoolean (get (doc f) "from_date") = false ->
     get (doc (exec (ItemWeightMeasure.onload today) f)) "from_date"
     = VString (obj_to_str (Some (first_day_a_year_before today))))
  /\ (ToBoolean (get (doc f) "to_date") = false ->
     get (doc (exec (ItemWeightMeasure.onload today) f)) "to_date"
     = VString (obj_to_str (Some today))).
Proof.
  intros Hv Hy. rewrite onload_run. cbn [doc].
  destruct (default_from_date today Hv Hy) as (_ & Hstr).
  fold (default_from today) in Hstr. split.
  - intros Hfrom. unfold get. rewrite fill_lookup_ne by discriminate.
    rewrite (fill_unset _ _ _ Hfrom). cbn [default]. now rewrite Hstr.
  - intros Hto. unfold get. rewrite fill_unset; [reflexivity|].
    unfold get. rewrite fill_lookup_ne by discriminate. exact Hto.
Qed.

(** X3: on a form without dates the default range is a proper range: both
    fields hold a date and the one in [from_date] is an earlier day than the
    one in [to_date]. *)
Theorem default_range_is_ordered (today : date) (f : form) :
  valid today = true -> 1 <= year today ->
  ToBoolean (get (doc f) "from_date") = false ->
  ToBoolean (get (doc f) "to_date") = false ->
  exists d1 d2,
    stored_date (exec (ItemWeightMeasure.onload today) f) "from_date" = Some d1
    /\ stored_date (exec (ItemWeightMeasure.onload today) f) "to_date" = Some d2
    /\ date_before d1 d2 = true.
Proof.
  intros Hv Hy Hfrom Hto.
  destruct (default_from_date today Hv Hy) as (Hv1 & Hstr).
  fold (default_from today) in Hstr.
  exists (first_day_a_year_before today), today.
  unfold stored_date. rewrite onload_run. cbn [doc].
  assert (Hto' : ToBoolean (get (fill "from_date" (VString (default_from today)) (doc f))
                                "to_date") = false).
  { unfold get. rewrite fill_lookup_ne by discriminate. exact Hto. }
  split; [|split].
  - unfold get. rewrite fill_lookup_ne by discriminate.
    rewrite (fill_unset _ _ _ Hfrom). cbn [default]. rewrite Hstr.
    now apply str_to_obj_obj_to_str.
  - unfold get. rewrite (fill_unset _ _ _ Hto'). cbn [default].
    now apply str_to_obj_obj_to_str.
  - unfold date_before, first_day_a_year_before. cbn [year month day].
    assert (H : (year today - 1 <? year today) = true) by (apply Z.ltb_lt; lia).
    now rewrite H.
Qed.

(** X4: the request that Generate sends after [onload] on a form without
    dates carries the default range; Generate sends one request and no
    other, and does not change the document fields. *)
Theorem default_range_is_requested (rt : Runtime) (today : date) (f : form) :
  valid today = true -> 1 <= year today ->
  ToBoolean (get (doc f) "from_date") = false ->
  ToBoolean (get (doc f) "to_date") = false ->
  exists args,
    calls (trace (snd (ItemWeightMeasure.generate_btn
                         (exec (ItemWeightMeasure.onload today) f))))
    = calls (trace f) ++ [Call ItemWeightMeasure.generate_method args "Computing…"]
    /\ args !! "from_date"
       = Some (VString (obj_to_str (Some (first_day_a_year_before today))))
    /\ args !! "to_date" = Some (VString (obj_to_str (Some today)))
    /\ args !! "company" = Some (get (doc f) "company")
    /\ args !! "warehouse" = Some (get (doc f) "warehouse")
    /\ doc (snd (ItemWeightMeasure.generate_btn (exec (ItemWeightMeasure.onload today) f)))
       = doc (exec (ItemWeightMeasure.onload today) f).
Proof.
  intros Hv Hy Hfrom Hto.
  destruct (default_from_date today Hv Hy) as (_ & Hstr).
  fold (default_from today) in Hstr.
  set (f1 := exec (ItemWeightMeasure.onload today) f).
  exists (request_args f1). rewrite generate_btn_run.
  assert (Hto' : ToBoolean (get (fill "from_date" (VString (default_from today)) (doc f))
                                "to_date") = false).
  { unfold get. rewrite fill_lookup_ne by discriminate. exact Hto. }
  assert (Hdoc : doc f1 = fill "to_date" (VString (obj_to_str (Some today)))
                            (fill "from_date" (VString (default_from today)) (doc f)))
    by (unfold f1; now rewrite onload_run).
  assert (Htr : trace f1 = trace f) by (unfold f1; now rewrite onload_run).
  split; [|split; [|split; [|split; [|split]]]].
  - cbn [snd requested trace]. rewrite Htr. unfold calls.
    rewrite List.filter_app. reflexivity.
  - unfold request_args. simplify_map_eq. f_equal. rewrite Hdoc. unfold get.
    rewrite fill_lookup_ne by discriminate. rewrite (fill_unset _ _ _ Hfrom).
    cbn [default]. now rewrite Hstr.
  - unfold request_args. simplify_map_eq. f_equal. rewrite Hdoc. unfold get.
    now rewrite (fill_unset _ _ _ Hto').
  - unfold request_args. simplify_map_eq. f_equal. rewrite Hdoc. unfold get.
    now rewrite !fill_lookup_ne by discriminate.
  - unfold request_args. simplify_map_eq. f_equal. rewrite Hdoc. unfold get.
    now rewrite !fill_lookup_ne by discriminate.
  - reflexivity.
Qed.

(** ** The row objects of a report cycle *)

Lemma entries_add_child (f : form) (n : string) (o : object) (b c : nat) :
  In n ["items"; "negative_stock_items"; "overload_items"] ->
  entries_are f b c -> entries_are (exec (add_child n o) f) b (S c).
Proof.
  intros Hn (Hp & Hl). unfold entries_are, entry_locs in *.
  rewrite !table_locs_add_child.
  change (store (exec (add_child n o) f)) with (store f ++ [o]).
  rewrite length_app, Hl, seq_S, <- Hp. cbn [length]. split; [|lia].
  destruct Hn as [<-|[<-|[<-|[]]]]; cbn [String.eqb Ascii.eqb Bool.eqb];
    rewrite ?app_nil_r; solve_Permutation.
Qed.

Section Entries.
Context {rt : Runtime}.
Import ItemWeightMeasure.

Lemma entries_distribute (item : object) (f : form) (b c : nat) :
  entries_are f b c -> exists c', entries_are (exec (distribute item) f) b c'.
Proof.
  intros H. unfold distribute. rewrite !exec_seq.
  apply (entries_add_child _ "items" (derived_row item)) in H; [|now left].
  set (f1 := exec (add_child "items" _) f) in *.
  assert (H2 : exists c2, entries_are
                 (exec (when (lt (get item "on_stock") zero)
                    (add_child "negative_stock_items" (derived_row item) ;; ret tt)) f1)
                 b c2).
  { destruct (lt _ _); cbn [when]; [|eauto]. rewrite exec_seq.
    eexists. apply entries_add_child; [right; now left|exact H]. }
  destruct H2 as (c2 & H2).
  destruct (gt _ _); cbn [when]; [|eauto]. rewrite exec_seq.
  eexists. apply entries_add_child; [right; right; now left|exact H2].
Qed.

Lemma entries_forEach_distribute (rs : list object) (f : form) (b c : nat) :
  entries_are f b c -> exists c', entries_are (exec (forEach rs distribute) f) b c'.
Proof.
  revert f c. induction rs as [|item rs IH]; intros f c H; [eauto|].
  cbn [forEach]. rewrite exec_seq.
  destruct (entries_distribute item f b c H) as (c1 & H1). eauto.
Qed.

Lemma entries_generate_cycle (f : form) (r : response) :
  exists c, entries_are (generate_cycle f r) (length (store f)) c.
Proof.
  rewrite generate_cycle_run. unfold generate_callback. rewrite !exec_seq.
  assert (H0 : entries_are (exec (console_log "my result ===> ") (requested f))
                 (length (store f)) 0).
  { destruct (requested_tables f) as (Hi & Hn & Ho).
    split; [|cbn; lia].
    change (entry_locs (exec (console_log "my result ===> ") (requested f)))
      with (entry_locs (requested f)).
    unfold entry_locs. now rewrite Hi, Hn, Ho. }
  destruct (entries_forEach_distribute (results r) _ _ _ H0) as (c & Hc).
  exists c. exact Hc.
Qed.
End Entries.

(** ** Generating the report *)

Section MoreGeneration.
Context {rt : Runtime}.
Import ItemWeightMeasure.

(** The row objects that the distribution of one response row creates, in
    the order it creates them. *)
Lemma distribute_store (item : object) (f : form) :
  store (exec (distribute item) f)
  = store f ++ derived_row item :: opt_row (negative_stock item) item
                ++ opt_row (overloaded item) item
  /\ doc (exec (distribute item) f) = doc f
  /\ trace (exec (distribute item) f) = trace f.
Proof.
  unfold distribute, negative_stock, overloaded, opt_row.
  rewrite !exec_seq.
  destruct (lt (get item "on_stock") zero), (gt (get item "overload") zero);
    cbn [when]; rewrite ?exec_seq; cbn [exec add_child ret snd store doc trace];
    rewrite <- ?app_assoc; now repeat split.
Qed.

Lemma forEach_distribute_store (rs : list object) (f : form) :
  (exists news,
     store (exec (forEach rs distribute) f) = store f ++ news
     /\ length news = (length rs + length (List.filter negative_stock rs)
                       + length (List.filter overloaded rs))%nat)
  /\ doc (exec (forEach rs distribute) f) = doc f
  /\ trace (exec (forEach rs distribute) f) = trace f.
Proof.
  revert f. induction rs as [|item rs IH]; intros f.
  - split; [|now split]. exists []. now rewrite app_nil_r.
  - cbn [forEach]. rewrite exec_seq.
    destruct (distribute_store item f) as (Hs & Hd & Ht).
    destruct (IH (exec (distribute item) f)) as ((news & Hnews & Hlen) & Hd' & Ht').
    split; [|split; congruence].
    eexists. split.
    + rewrite Hnews, Hs, <- app_assoc. reflexivity.
    + rewrite length_app, Hlen. cbn [length List.filter].
      rewrite length_app. unfold opt_row.
      destruct (negative_stock item), (overloaded item); cbn [length]; lia.
Qed.

(** X5: the three tables after a report cycle depend on the response only:
    whatever the form held before (rows of an earlier report, corrected
    rows) is replaced. *)
Theorem generate_cycle_forgets (f1 f2 : form) (r : response) :
  same_collections (generate_cycle f1 r) (generate_cycle f2 r).
Proof.
  destruct (generate_cycle_rows f1 r) as (Ri1 & Rn1 & Ro1 & _).
  destruct (generate_cycle_rows f2 r) as (Ri2 & Rn2 & Ro2 & _).
  unfold same_collections. now rewrite Ri1, Rn1, Ro1, Ri2, Rn2, Ro2.
Qed.

(** X6: after a report cycle [negative_stock_items] and [overload_items] are
    no longer than [items], and every entry of the three tables is a row
    object of its own, created by this cycle: no row reference occurs twice
    in the three tables, the references are exactly the addresses of the
    objects added to the store, and the store has grown by the total number
    of entries. *)
Theorem table_sizes_after_generation (f : form) (r : response) :
  (length (table_locs (generate_cycle f r) "negative_stock_items")
   <= length (table_locs (generate_cycle f r) "items"))%nat
  /\ (length (table_locs (generate_cycle f r) "overload_items")
      <= length (table_locs (generate_cycle f r) "items"))%nat
  /\ length (store (generate_cycle f r))
     = (length (store f)
        + length (table_locs (generate_cycle f r) "items")
        + length (table_locs (generate_cycle f r) "negative_stock_items")
        + length (table_locs (generate_cycle f r) "overload_items"))%nat
  /\ List.NoDup (table_locs (generate_cycle f r) "items"
                 ++ table_locs (generate_cycle f r) "negative_stock_items"
                 ++ table_locs (generate_cycle f r) "overload_items")
  /\ (forall l,
        In l (table_locs (generate_cycle f r) "items"
              ++ table_locs (generate_cycle f r) "negative_stock_items"
              ++ table_locs (generate_cycle f r) "overload_items")
        <-> (length (store f) <= l < length (store (generate_cycle f r)))%nat).
Proof.
  destruct (entries_generate_cycle f r) as (c & Hperm & Hlen).
  fold (entry_locs (generate_cycle f r)).
  assert (Hc : c = length (entry_locs (generate_cycle f r)))
    by (rewrite Hperm; now rewrite length_seq).
  destruct (generate_cycle_rows f r) as (Ri & Rn & Ro & Wi & Wn & Wo).
  split; [|split; [|split; [|split]]].
  - rewrite <- (in_store_length _ _ Wi), <- (in_store_length _ _ Wn), Ri, Rn,
      !length_map. apply filter_length_le.
  - rewrite <- (in_store_length _ _ Wi), <- (in_store_length _ _ Wo), Ri, Ro,
      !length_map. apply filter_length_le.
  - rewrite Hlen, Hc. unfold entry_locs. rewrite !length_app. lia.
  - apply NoDup_ListNoDup. rewrite Hperm. apply NoDup_seq.
  - intros l. rewrite <- list_elem_of_In, Hperm, elem_of_seq, Hlen. reflexivity.
Qed.

(** X7: the callback of the request adds to the trace one log and one
    refresh of each of the three tables, in this order and however many
    rows the response has: no refresh per row, no request, no alert; it
    leaves the document fields as they are and changes no row object that
    was there before. *)
Theorem generate_callback_effects (r : response) (f : form) :
  trace (exec (generate_callback r) f)
  = trace f ++ [ConsoleLog "my result ===> "; RefreshField "items";
                RefreshField "negative_stock_items"; RefreshField "overload_items"]
  /\ doc (exec (generate_callback r) f) = doc f
  /\ (forall l o, store f !! l = Some o ->
        store (exec (generate_callback r) f) !! l = Some o).
Proof.
  unfold generate_callback. rewrite !exec_seq.
  destruct (forEach_distribute_store (results r)
              (exec (console_log "my result ===> ") f))
    as ((news & Hnews & _) & Hd & Ht).
  cbn [exec refresh_field emit snd store doc trace] in *.
  split; [|split].
  - rewrite Ht. cbn [exec console_log emit snd trace]. now rewrite <- !app_assoc.
  - rewrite Hd. reflexivity.
  - intros l o Hl. rewrite Hnews. cbn [exec console_log emit snd store].
    now apply lookup_app_l_Some.
Qed.

Lemma nullish_not_compared (v : value) :
  nullish v = true -> lt v zero = false /\ gt v zero = false.
Proof. destruct v; try discriminate; now split. Qed.

(** X8: a response row whose [on_stock] and [overload] are missing or null
    is listed in [items] only; a response of such rows, the legacy shape for
    one, leaves [negative_stock_items] and [overload_items] empty. *)
Theorem rows_without_figures_stay_in_items (f : form) (r : response) :
  (forall item, In item (results r) ->
     nullish (get item "on_stock") = true /\ nullish (get item "overload") = true) ->
  table_rows (generate_cycle f r) "items" = map derived_row (results r)
  /\ table_rows (generate_cycle f r) "negative_stock_items" = []
  /\ table_rows (generate_cycle f r) "overload_items" = [].
Proof.
  intros Hnull.
  destruct (generate_cycle_rows f r) as (Ri & Rn & Ro & _).
  rewrite Ri, Rn, Ro. split; [reflexivity|].
  assert (H : forall rs,
             (forall item, In item rs ->
                nullish (get item "on_stock") = true
                /\ nullish (get item "overload") = true) ->
             List.filter negative_stock rs = [] /\ List.filter overloaded rs = []).
  { induction rs as [|item rs IH]; intros Hrs; [now split|].
    destruct (Hrs item (or_introl eq_refl)) as (Hs & Ho).
    destruct (nullish_not_compared _ Hs) as (Hlt & _).
    destruct (nullish_not_compared _ Ho) as (_ & Hgt).
    destruct IH as (IHn & IHo); [intros i Hi; apply Hrs; now right|].
    cbn [List.filter]. unfold negative_stock at 1, overloaded at 1.
    now rewrite Hlt, Hgt. }
  destruct (H (results r) Hnull) as (Hn & Ho). rewrite Hn, Ho. now split.
Qed.
End MoreGeneration.

(** ** The legacy script *)

Lemma legacy_cycle_in_store (f : form) (r : response) :
  in_store f "items" -> in_store (legacy_cycle f r) "items".
Proof.
  intros Hin. unfold legacy_cycle. rewrite legacy_generate_btn_run.
  cbn [respond]. unfold Legacy.generate_callback. rewrite !exec_seq.
  set (f0 := exec (msgprint _) (exec (console_log _) (legacy_requested f))).
  assert (Hin0 : in_store f0 "items") by exact Hin.
  destruct (forEach_legacy (results r) f0 Hin0) as (_ & W & _).
  exact W.
Qed.

(** X9: the legacy script never empties [items]: over two report cycles the
    table holds the rows it had, then the rows of the first response, then
    the rows of the second, and the other tables keep their row references. *)
Theorem legacy_cycles_accumulate (f : form) (r1 r2 : response) :
  in_store f "items" ->
  table_rows (legacy_cycle (legacy_cycle f r1) r2) "items"
  = table_rows f "items" ++ map Legacy.item_row (results r1)
    ++ map Legacy.item_row (results r2)
  /\ (forall n, n <> "items" ->
        table_locs (legacy_cycle (legacy_cycle f r1) r2) n = table_locs f n).
Proof.
  intros Hin.
  destruct (legacy_cycle_rows f r1 Hin) as (R1 & L1).
  destruct (legacy_cycle_rows (legacy_cycle f r1) r2 (legacy_cycle_in_store f r1 Hin))
    as (R2 & L2).
  split.
  - now rewrite R2, R1, <- app_assoc.
  - intros n Hn. now rewrite L2, L1.
Qed.

(** ** Resetting to zero *)

Section MoreReset.
Context {rt : Runtime}.
Import ItemWeightMeasure.

Lemma reset_store_idemp (rows : list loc) (h : list object) :
  reset_store rows (reset_store rows h) = reset_store rows h.
Proof.
  apply list_eq. intros l. destruct (in_dec Nat.eq_dec l rows) as [Hin|Hnin].
  - rewrite !reset_store_lookup_in by exact Hin.
    destruct (h !! l); cbn; [|reflexivity]. now rewrite reset_object_idemp.
  - now rewrite !reset_store_lookup_other by exact Hnin.
Qed.

Lemma reset_confirmed_rows (f : form) :
  table_rows (reset_confirmed f) "negative_stock_items"
  = map reset_object (table_rows f "negative_stock_items").
Proof.
  destruct (table_locs f "negative_stock_items") as [|l0 ls] eqn:E.
  - rewrite (reset_confirmed_empty f E). unfold table_rows, table_locs in *.
    cbn [tables store]. now rewrite E.
  - assert (Hne : table_locs f "negative_stock_items" <> []) by (rewrite E; discriminate).
    rewrite (reset_confirmed_run f Hne). unfold table_rows, table_locs.
    cbn [tables store]. apply rows_at_map. intros l Hl.
    now apply reset_store_lookup_in.
Qed.

(** X10: pressing the Reset button changes nothing by itself: the document,
    the tables and every row are as before until the user confirms; on a
    table with rows it opens one dialog, which tells the number of rows. *)
Theorem reset_waits_for_confirmation (f : form) :
  doc (snd (reset_to_zero_btn f)) = doc f
  /\ tables (snd (reset_to_zero_btn f)) = tables f
  /\ store (snd (reset_to_zero_btn f)) = store f
  /\ (table_locs f "negative_stock_items" <> [] ->
      trace (snd (reset_to_zero_btn f))
      = trace f ++ [Confirm "Set {0} row(s) On stock → 0 and recompute Need/Overload?"
                            (length (table_locs f "negative_stock_items"))]).
Proof.
  destruct (table_locs f "negative_stock_items") as [|l ls] eqn:E.
  - rewrite (reset_btn_empty f E). do 3 (split; [reflexivity|]).
    intros H. now destruct H.
  - assert (H : snd (reset_to_zero_btn f)
                = mkForm (doc f) (tables f) (store f)
                         (trace f ++ [Confirm
                            "Set {0} row(s) On stock → 0 and recompute Need/Overload?"
                            (length (l :: ls))])).
    { unfold reset_to_zero_btn, bind, doc_table.
      fold (table_locs f "negative_stock_items"). rewrite E. reflexivity. }
    rewrite H. do 3 (split; [reflexivity|]). intros _. reflexivity.
Qed.

(** X11: a second confirmed reset changes no row, no table and no field. *)
Theorem reset_twice (f : form) :
  store (reset_confirmed (reset_confirmed f)) = store (reset_confirmed f)
  /\ tables (reset_confirmed (reset_confirmed f)) = tables (reset_confirmed f)
  /\ doc (reset_confirmed (reset_confirmed f)) = doc (reset_confirmed f).
Proof.
  destruct (table_locs f "negative_stock_items") as [|l0 ls] eqn:E.
  - rewrite (reset_confirmed_empty f E).
    rewrite reset_confirmed_empty by exact E. now repeat split.
  - assert (Hne : table_locs f "negative_stock_items" <> []) by (rewrite E; discriminate).
    rewrite (reset_confirmed_run f Hne).
    set (f1 := mkForm _ _ _ _).
    assert (Hne1 : table_locs f1 "negative_stock_items" <> []) by exact Hne.
    rewrite (reset_confirmed_run f1 Hne1). cbn [store tables doc].
    change (table_locs f1 "negative_stock_items")
      with (table_locs f "negative_stock_items").
    unfold f1. cbn [store tables doc]. now rewrite reset_store_idemp.
Qed.

(** X12: a confirmed reset keeps the rows of [negative_stock_items] in place
    and in order and writes [on_stock], [need] and [overload] only: every
    other property of every row, such as [item], [qty] and [date], reads as
    before. *)
Theorem reset_keeps_other_fields (f : form) (k : string) :
  k <> "on_stock" -> k <> "need" -> k <> "overload" ->
  map (fun row : object => row !! k) (table_rows (reset_confirmed f) "negative_stock_items")
  = map (fun row : object => row !! k) (table_rows f "negative_stock_items").
Proof.
  intros H1 H2 H3. rewrite reset_confirmed_rows, map_map.
  apply map_ext. intros row. now apply reset_object_other.
Qed.

(** X13: generating and then resetting: [negative_stock_items] still lists
    the rows of the response with [on_stock < 0], in order, although their
    [on_stock] is now 0; each reads [need] as [Number(best_sell) || 0] of
    its response row and keeps [item] and [qty]. *)
Theorem reset_after_generate_rows (f : form) (r : response) :
  table_rows (reset_confirmed (generate_cycle f r)) "negative_stock_items"
  = map (fun item => reset_object (derived_row item))
        (List.filter (fun item => lt (get item "on_stock") zero) (results r))
  /\ (forall item,
        get (reset_object (derived_row item)) "need"
        = or (Number (get item "best_sell")) (VNumber zero)
        /\ get (reset_object (derived_row item)) "item" = get item "item"
        /\ get (reset_object (derived_row item)) "qty" = get item "best_sell"
        /\ lt (get (reset_object (derived_row item)) "on_stock") zero = false
        /\ ge (get (reset_object (derived_row item)) "on_stock") zero = true).
Proof.
  split.
  - rewrite reset_confirmed_rows.
    destruct (generate_cycle_rows f r) as (_ & Rn & _).
    rewrite Rn, map_map. reflexivity.
  - intros item.
    destruct (reset_object_get (derived_row item)) as (Hs & Hn & _ & Hq & _).
    destruct (derived_row_get item) as (_ & _ & Hqty & Hbs).
    rewrite Hs, Hn, Hq, Hqty.
    split; [|split; [|split; [reflexivity|split; reflexivity]]].
    + rewrite <- reset_qty_eq, Hqty, Hbs. unfold coalesce, or, Number.
      destruct (get item "best_sell"); reflexivity.
    + unfold get. rewrite reset_object_other by discriminate.
      now destruct (derived_row_lookup item) as (-> & _).
Qed.


End MoreReset.

(** ** The names each script reads *)

(** X18: each script reads the response rows under its own names only: of a
    row that has none of [item], [best_sell], [date], [need], [on_stock],
    [overload] the script of [item_weight_measure.js] makes a row all of
    whose properties read undefined, and so does the legacy script of a row
    that has none of [item_code], [total_qty], [ym]. *)
Theorem scripts_read_their_own_names (item : object) :
  (item !! "item" = None -> item !! "best_sell" = None -> item !! "date" = None ->
   item !! "need" = None -> item !! "on_stock" = None -> item !! "overload" = None ->
   forall k, get (ItemWeightMeasure.derived_row item) k = VUndefined)
  /\ (item !! "item_code" = None -> item !! "total_qty" = None -> item !! "ym" = None ->
      forall k, get (Legacy.item_row item) k = VUndefined).
Proof.
  split.
  - intros H1 H2 H3 H4 H5 H6 k.
    unfold ItemWeightMeasure.derived_row, get. rewrite H1, H2, H3, H4, H5, H6.
    cbn [default].
    destruct (decide (k = "item")) as [->|?]; [now simplify_map_eq|].
    destruct (decide (k = "qty")) as [->|?]; [now simplify_map_eq|].
    destruct (decide (k = "date")) as [->|?]; [now simplify_map_eq|].
    destruct (decide (k = "need")) as [->|?]; [now simplify_map_eq|].
    destruct (decide (k = "on_stock")) as [->|?]; [now simplify_map_eq|].
    destruct (decide (k = "overload")) as [->|?]; now simplify_map_eq.
  - intros H1 H2 H3 k. unfold Legacy.item_row, get. rewrite H1, H2, H3.
    cbn [default].
    destruct (decide (k = "item")) as [->|?]; [now simplify_map_eq|].
    destruct (decide (k = "qty")) as [->|?]; [now simplify_map_eq|].
    destruct (decide (k = "date")) as [->|?]; now simplify_map_eq.
Qed.

Lemma forEach_legacy_store (rs : list object) (f : form) :
  let f' := exec (forEach rs (fun item => add_child "items" (Legacy.item_row item) ;; ret tt)) f in
  store f' = store f ++ map Legacy.item_row rs
  /\ doc f' = doc f /\ trace f' = trace f
  /\ (forall n, n <> "items" -> table_locs f' n = table_locs f n)
  /\ length (table_locs f' "items")
     = (length (table_locs f "items") + length rs)%nat.
Proof.
  revert f. induction rs as [|item rs IH]; intros f f'; subst f'.
  - cbn [forEach map length]. change (exec (ret tt) f) with f.
    rewrite app_nil_r, Nat.add_0_r. now repeat split.
  - cbn [forEach]. rewrite !exec_seq. change (exec (ret tt) ?g) with g.
    set (f1 := exec (add_child "items" (Legacy.item_row item)) f).
    destruct (IH f1) as (Hs & Hd & Ht & Hn & Hl).
    assert (Hs1 : store f1 = store f ++ [Legacy.item_row item]) by reflexivity.
    assert (Hd1 : doc f1 = doc f) by reflexivity.
    assert (Ht1 : trace f1 = trace f) by reflexivity.
    assert (Hl1 : table_locs f1 "items" = table_locs f "items" ++ [length (store f)])
      by apply table_locs_add_child_eq.
    rewrite Hs, Hd, Ht, Hl, Hs1, Hd1, Ht1, Hl1, length_app, <- app_assoc.
    cbn [map length app]. repeat split; try reflexivity; try lia.
    intros n Hne. rewrite Hn by exact Hne. unfold f1.
    apply table_locs_add_child_ne. congruence.
Qed.

(** X19: the callback of the legacy script logs, shows the message "Done"
    and refreshes [items], once each and also for an empty response; it adds
    one row reference to [items] per response row and leaves the other
    tables, the document fields and the row objects that were there as they
    are. *)
Theorem legacy_callback_effects (r : response) (f : form) :
  trace (exec (Legacy.generate_callback r) f)
  = trace f ++ [ConsoleLog "my result ===> "; Msgprint "Done"; RefreshField "items"]
  /\ doc (exec (Legacy.generate_callback r) f) = doc f
  /\ length (table_locs (exec (Legacy.generate_callback r) f) "items")
     = (length (table_locs f "items") + length (results r))%nat
  /\ (forall n, n <> "items" ->
        table_locs (exec (Legacy.generate_callback r) f) n = table_locs f n)
  /\ (forall l o, store f !! l = Some o ->
        store (exec (Legacy.generate_callback r) f) !! l = Some o).
Proof.
  unfold Legacy.generate_callback. rewrite !exec_seq.
  set (f0 := exec (msgprint "Done") (exec (console_log "my result ===> ") f)).
  destruct (forEach_legacy_store (results r) f0) as (Hs & Hd & Ht & Hn & Hl).
  set (f1 := exec (forEach _ _) f0) in *.
  change (trace (exec (refresh_field "items") f1))
    with (trace f1 ++ [RefreshField "items"]).
  change (doc (exec (refresh_field "items") f1)) with (doc f1).
  change (store (exec (refresh_field "items") f1)) with (store f1).
  change (table_locs (exec (refresh_field "items") f1)) with (table_locs f1).
  rewrite Ht, Hd, Hl, Hs. unfold f0.
  cbn [exec msgprint console_log emit snd trace doc store].
  split; [now rewrite <- !app_assoc|]. split; [reflexivity|]. split; [reflexivity|].
  split; [exact Hn|]. intros l o Hlo. now apply lookup_app_l_Some.
Qed.

(** ** The further properties on the sample data *)

Lemma onload_fills_each_unset_date_witness :
  valid leap_day = true
  /\ get (doc (exec (ItemWeightMeasure.onload leap_day) half_dated_form)) "to_date"
     = VString "2024-02-29".
Proof.
  assert (Hy : 1 <= year leap_day) by (cbn; lia).
  split; [reflexivity|].
  exact (proj2 (onload_fills_each_unset_date leap_day half_dated_form eq_refl Hy) eq_refl).
Defined.

Lemma default_range_is_ordered_witness :
  valid leap_day = true
  /\ exists d1 d2,
       stored_date (exec (ItemWeightMeasure.onload leap_day) undated_form) "from_date"
       = Some d1
       /\ stored_date (exec (ItemWeightMeasure.onload leap_day) undated_form) "to_date"
          = Some d2
       /\ date_before d1 d2 = true.
Proof.
  assert (Hy : 1 <= year leap_day) by (cbn; lia).
  split; [reflexivity|].
  exact (default_range_is_ordered leap_day undated_form eq_refl Hy eq_refl eq_refl).
Defined.

Lemma default_range_is_requested_witness :
  valid leap_day = true
  /\ exists args,
       calls (trace (snd (@ItemWeightMeasure.generate_btn sample_runtime
                            (exec (ItemWeightMeasure.onload leap_day) undated_form))))
       = [Call ItemWeightMeasure.generate_method args "Computing…"]
       /\ args !! "from_date" = Some (VString "2023-02-01")
       /\ args !! "to_date" = Some (VString "2024-02-29").
Proof.
  assert (Hy : 1 <= year leap_day) by (cbn; lia).
  split; [reflexivity|].
  destruct (default_range_is_requested sample_runtime leap_day undated_form
              eq_refl Hy eq_refl eq_refl) as (args & Hc & Hf & Ht & _).
  exists args. split; [exact Hc|]. split; [exact Hf|exact Ht].
Defined.

Lemma rows_without_figures_stay_in_items_witness :
  table_rows (@generate_cycle sample_runtime empty_form legacy_response)
             "negative_stock_items" = [].
Proof.
  assert (H : forall item, In item (results legacy_response) ->
                nullish (get item "on_stock") = true
                /\ nullish (get item "overload") = true).
  { intros item [<-|[]]. split; reflexivity. }
  exact (proj1 (proj2 (@rows_without_figures_stay_in_items sample_runtime empty_form
                         legacy_response H))).
Defined.

Lemma legacy_cycles_accumulate_witness :
  in_store stale_form "items"
  /\ table_rows (legacy_cycle (legacy_cycle stale_form legacy_response) legacy_response)
                "items"
     = table_rows stale_form "items" ++ map Legacy.item_row (results legacy_response)
       ++ map Legacy.item_row (results legacy_response).
Proof.
  assert (H : in_store stale_form "items").
  { unfold in_store. vm_compute. repeat constructor. }
  split; [exact H|].
  exact (proj1 (legacy_cycles_accumulate stale_form legacy_response legacy_response H)).
Defined.

Lemma reset_waits_for_confirmation_witness :
  table_locs negative_form "negative_stock_items" <> []
  /\ trace (snd (@ItemWeightMeasure.reset_to_zero_btn sample_runtime negative_form))
     = [Confirm "Set {0} row(s) On stock → 0 and recompute Need/Overload?" 1%nat].
Proof.
  assert (H : table_locs negative_form "negative_stock_items" <> [])
    by (vm_compute; discriminate).
  split; [exact H|].
  exact (proj2 (proj2 (proj2 (@reset_waits_for_confirmation sample_runtime
                                negative_form))) H).
Defined.

Lemma reset_keeps_other_fields_witness :
  map (fun row : object => row !! "qty")
      (table_rows (@reset_confirmed sample_runtime negative_form) "negative_stock_items")
  = map (fun row : object => row !! "qty")
        (table_rows negative_form "negative_stock_items").
Proof.
  apply (@reset_keeps_other_fields sample_runtime negative_form "qty"); discriminate.
Defined.



Lemma generate_btn_clears_tables_witness :
  table_locs (@generate_cycle sample_runtime stale_form (mkResponse [])) "items" = [].
Proof.
  exact (proj1 (proj2 (proj2 (proj2 (proj2
           (@generate_btn_clears_tables sample_runtime stale_form (mkResponse []))))) eq_refl)).
Defined.

Lemma scripts_read_their_own_names_witness :
  get (Legacy.item_row row_A) "item" = VUndefined
  /\ get (ItemWeightMeasure.derived_row legacy_row) "item" = VUndefined.
Proof.
  split.
  - exact (proj2 (scripts_read_their_own_names row_A) eq_refl eq_refl eq_refl "item").
  - exact (proj1 (scripts_read_their_own_names legacy_row)
             eq_refl eq_refl eq_refl eq_refl eq_refl eq_refl "item").
Defined.
